(** * goflash/otel: the OpenTelemetry middleware of flash, embedded in Rocq

    The development follows [otel.go].  The middleware is a function from
    handlers to handlers; a handler is effectful Go code that reads and
    writes the request context [c] it is handed, the spans it can reach and
    the clock, and that may panic.  The embedding threads this state
    explicitly and records, next to it, the sequence of calls the
    middleware itself makes on its collaborators (propagator, tracer, span,
    inner handler). *)

From Stdlib Require Import ZArith String List Bool Lia.
From stdpp Require Import base list strings.
Import ListNotations.

Local Open Scope string_scope.
Local Open Scope Z_scope.
Local Open Scope list_scope.

(** ** Values of the collaborating packages *)

(** [error]: a Go error value; [None] is [nil].  The middleware only tests
    an error against [nil] and passes it on. *)
Definition error : Type := option string.

Definition is_nil (err : error) : bool :=
  match err with None => true | Some _ => false end.

(** [codes.Code] of go.opentelemetry.io/otel/codes. *)
Inductive codes_Code : Type := codes_Unset | codes_Error | codes_Ok.

(** [attribute.Value]: the typed scalars the middleware builds.  A float64
    is kept as the quotient it was computed from, [float64(num)/float64(den)]. *)
Inductive attribute_Value : Type :=
| StringValue (s : string)
| IntValue (i : Z)
| Float64Quot (num den : Z).

(** [attribute.KeyValue]. *)
Record attribute_KeyValue : Type := KeyValue {
  Key : string;
  Value : attribute_Value
}.

Definition attribute_String (k v : string) : attribute_KeyValue :=
  KeyValue k (StringValue v).
Definition attribute_Int (k : string) (v : Z) : attribute_KeyValue :=
  KeyValue k (IntValue v).
Definition attribute_Float64 (k : string) (num den : Z) : attribute_KeyValue :=
  KeyValue k (Float64Quot num den).

(** [http.StatusOK] and [time.Millisecond] (in nanoseconds). *)
Definition http_StatusOK : Z := 200.
Definition time_Millisecond : Z := 1000000.

(** [http.StatusText] of the Go standard library: the reason phrase of a
    status code, empty for a code it does not know. *)
Definition http_StatusText (code : Z) : string :=
  match code with
  | 100 => "Continue"
  | 101 => "Switching Protocols"
  | 102 => "Processing"
  | 103 => "Early Hints"
  | 200 => "OK"
  | 201 => "Created"
  | 202 => "Accepted"
  | 203 => "Non-Authoritative Information"
  | 204 => "No Content"
  | 205 => "Reset Content"
  | 206 => "Partial Content"
  | 207 => "Multi-Status"
  | 208 => "Already Reported"
  | 226 => "IM Used"
  | 300 => "Multiple Choices"
  | 301 => "Moved Permanently"
  | 302 => "Found"
  | 303 => "See Other"
  | 304 => "Not Modified"
  | 305 => "Use Proxy"
  | 307 => "Temporary Redirect"
  | 308 => "Permanent Redirect"
  | 400 => "Bad Request"
  | 401 => "Unauthorized"
  | 402 => "Payment Required"
  | 403 => "Forbidden"
  | 404 => "Not Found"
  | 405 => "Method Not Allowed"
  | 406 => "Not Acceptable"
  | 407 => "Proxy Authentication Required"
  | 408 => "Request Timeout"
  | 409 => "Conflict"
  | 410 => "Gone"
  | 411 => "Length Required"
  | 412 => "Precondition Failed"
  | 413 => "Request Entity Too Large"
  | 414 => "Request URI Too Long"
  | 415 => "Unsupported Media Type"
  | 416 => "Requested Range Not Satisfiable"
  | 417 => "Expectation Failed"
  | 418 => "I'm a teapot"
  | 421 => "Misdirected Request"
  | 422 => "Unprocessable Entity"
  | 423 => "Locked"
  | 424 => "Failed Dependency"
  | 425 => "Too Early"
  | 426 => "Upgrade Required"
  | 428 => "Precondition Required"
  | 429 => "Too Many Requests"
  | 431 => "Request Header Fields Too Large"
  | 451 => "Unavailable For Legal Reasons"
  | 500 => "Internal Server Error"
  | 501 => "Not Implemented"
  | 502 => "Bad Gateway"
  | 503 => "Service Unavailable"
  | 504 => "Gateway Timeout"
  | 505 => "HTTP Version Not Supported"
  | 506 => "Variant Also Negotiates"
  | 507 => "Insufficient Storage"
  | 508 => "Loop Detected"
  | 510 => "Not Extended"
  | 511 => "Network Authentication Required"
  | _ => ""
  end.

(** ** The two built-in policies of [OTelWithConfig] *)

(** [defaultStatus] (otel.go, lines 67-72). *)
Definition defaultStatus (status : Z) (err : error) : codes_Code * string :=
  if negb (is_nil err) || (500 <=? status)
  then (codes_Error, http_StatusText status)
  else (codes_Ok, "").

(** ** Spans, contexts, requests *)

(** [trace.SpanKind]. *)
Inductive trace_SpanKind : Type :=
| SpanKindUnspecified | SpanKindInternal | SpanKindServer
| SpanKindClient | SpanKindProducer | SpanKindConsumer.

(** [trace.Span]: a span handle.  [noopSpan] is the non-recording span of
    the trace package; [recordingSpan id] is a span that a recording
    tracer allocated, [id] being its place in the span store. *)
Inductive trace_Span : Type :=
| noopSpan
| recordingSpan (id : nat).

(** [context.Context], as far as tracing reads it: the active span (the
    value under the trace package's current-span key) and the remote
    parent a propagator extracted. *)
Record context_Context : Type := {
  ctxSpan : option trace_Span;
  ctxRemote : option string
}.

Definition context_Background : context_Context :=
  {| ctxSpan := None; ctxRemote := None |}.

(** [trace.ContextWithSpan] and [trace.SpanFromContext]. *)
Definition trace_ContextWithSpan (ctx : context_Context) (sp : trace_Span)
  : context_Context :=
  {| ctxSpan := Some sp; ctxRemote := ctxRemote ctx |}.

Definition trace_SpanFromContext (ctx : context_Context) : trace_Span :=
  match ctxSpan ctx with
  | Some sp => sp
  | None => noopSpan
  end.

(** [http.Header] and the fields of [*http.Request] the middleware uses. *)
Definition http_Header : Type := list (string * list string).

Record http_Request : Type := {
  reqContext : context_Context;
  Header : http_Header;
  RemoteAddr : string
}.

Definition zero_Request : http_Request :=
  {| reqContext := context_Background; Header := []; RemoteAddr := "" |}.

(** [flash.Ctx]: the request context object, one field per accessor the
    middleware calls.  [Request] is a pointer into the request heap. *)
Record flash_Ctx : Type := {
  Method : string;
  Path : string;
  Route : string;
  StatusCode : Z;
  Request : nat
}.

(** What a recording span has been told, in call order. *)
Inductive SpanOp : Type :=
| OpSetAttributes (attrs : list attribute_KeyValue)
| OpSetStatus (code : codes_Code) (description : string)
| OpRecordError (err : string)
| OpAddEvent (name : string) (attrs : list attribute_KeyValue)
| OpEnd.

Record SpanRecord : Type := {
  spName : string;
  spKind : trace_SpanKind;
  spParent : context_Context;
  spOps : list SpanOp
}.

(** The state outside the request context: the span store, the heap of
    request objects, the monotonic clock (nanoseconds). *)
Record World : Type := {
  spans : list SpanRecord;
  requests : list http_Request;
  clock : Z
}.

Definition set_spans (f : list SpanRecord -> list SpanRecord) (w : World) : World :=
  {| spans := f (spans w); requests := requests w; clock := clock w |}.

Definition set_requests (f : list http_Request -> list http_Request) (w : World)
  : World :=
  {| spans := spans w; requests := f (requests w); clock := clock w |}.

(** The state a handler runs on: the context object [c] and the world. *)
Record State : Type := {
  st_c : flash_Ctx;
  st_w : World
}.

(** Reading through a request pointer.  A context built by flash always
    holds a request; an address outside the heap reads as the zero request. *)
Definition load (w : World) (r : nat) : http_Request :=
  default zero_Request (requests w !! r).

(** The methods of [trace.Span] on the world.  Every method of the no-op
    span does nothing; a recording span appends to its journal. *)
Definition journal (op : SpanOp) (rec : SpanRecord) : SpanRecord :=
  {| spName := spName rec; spKind := spKind rec; spParent := spParent rec;
     spOps := spOps rec ++ [op] |}.

Definition span_do (sp : trace_Span) (op : SpanOp) (w : World) : World :=
  match sp with
  | noopSpan => w
  | recordingSpan id => set_spans (alter (journal op) id) w
  end.

Definition has_ended (rec : SpanRecord) : bool :=
  existsb (fun op => match op with OpEnd => true | _ => false end) (spOps rec).

Definition IsRecording (sp : trace_Span) (w : World) : bool :=
  match sp with
  | noopSpan => false
  | recordingSpan id =>
      match spans w !! id with
      | Some rec => negb (has_ended rec)
      | None => false
      end
  end.

(** [trace.Tracer]: the capability that starts spans. *)
Record trace_Tracer : Type := {
  Start : context_Context -> string -> trace_SpanKind -> World ->
          context_Context * trace_Span * World
}.

(** [propagation.TextMapPropagator]: the capability that reads a parent
    context from the request headers. *)
Record propagation_TextMapPropagator : Type := {
  Extract : context_Context -> http_Header -> context_Context
}.

(** The global registry of the otel package: [otel.Tracer(name)] and
    [otel.GetTextMapPropagator()]. *)
Record otel_Globals : Type := {
  otel_Tracer : string -> trace_Tracer;
  otel_GetTextMapPropagator : propagation_TextMapPropagator
}.

(** [OTelConfig] (otel.go, lines 18-40).  An absent function field is
    [None].  The configured functions are given the request context; they
    read it and what it reaches (the state), change nothing and return. *)
Record OTelConfig : Type := {
  Tracer : option trace_Tracer;
  Propagator : option propagation_TextMapPropagator;
  FilterFunc : option (State -> bool);
  SpanNameFunc : option (State -> string);
  AttributesFunc : option (State -> list attribute_KeyValue);
  StatusFunc : option (Z -> error -> codes_Code * string);
  RecordDuration : bool;
  ServiceName : string;
  ExtraAttributes : list attribute_KeyValue
}.

(** ** Running Go code: outcomes, the middleware's calls, the monad *)

(** A call either returns or panics with a value. *)
Inductive Outcome (A : Type) : Type :=
| Return (a : A)
| Panic (v : string).
Arguments Return {A} a.
Arguments Panic {A} v.

(** [flash.Handler]: user code run on the request context and the world. *)
Definition flash_Handler : Type := State -> Outcome error * State.

(** The calls the middleware makes on its collaborators. *)
Inductive Event : Type :=
| EvExtract (ctx : context_Context) (carrier : http_Header)
| EvStart (parent : context_Context) (name : string) (kind : trace_SpanKind)
          (sp : trace_Span)
| EvSetRequest (r : nat)
| EvCallNext (c : flash_Ctx)
| EvNextDone (out : Outcome error)
| EvSetAttributes (sp : trace_Span) (attrs : list attribute_KeyValue)
| EvSetStatus (sp : trace_Span) (code : codes_Code) (description : string)
| EvRecordError (sp : trace_Span) (err : string)
| EvEnd (sp : trace_Span).

(** Middleware code: a state transformer that may panic and that logs its
    calls in order. *)
Definition M (A : Type) : Type := State -> Outcome A * State * list Event.

Definition ret {A : Type} (a : A) : M A := fun st => (Return a, st, []).

Definition bind {A B : Type} (m : M A) (k : A -> M B) : M B := fun st =>
  match m st with
  | (Return a, st1, t1) =>
      match k a st1 with
      | (out, st2, t2) => (out, st2, t1 ++ t2)
      end
  | (Panic v, st1, t1) => (Panic v, st1, t1)
  end.

Declare Scope go_scope.
Delimit Scope go_scope with go.
Notation "x <- m ;; k" := (bind m (fun x => k))
  (at level 100, m at next level, right associativity) : go_scope.
Notation "m ;; k" := (bind m (fun _ => k))
  (at level 100, right associativity) : go_scope.

(** Go's [defer]: [cleanup] runs when [body] is left, by return or by
    panic; the outcome is the body's unless the cleanup itself panics. *)
Definition defer_ {A : Type} (cleanup : M unit) (body : M A) : M A := fun st =>
  match body st with
  | (out, st1, t1) =>
      match cleanup st1 with
      | (Return _, st2, t2) => (out, st2, t1 ++ t2)
      | (Panic v, st2, t2) => (Panic v, st2, t1 ++ t2)
      end
  end.

(** Reads of the state. *)
Definition get_State : M State := fun st => (Return st, st, []).

Definition c_Request : M nat := fun st => (Return (Request (st_c st)), st, []).

Definition deref (r : nat) : M http_Request := fun st =>
  (Return (load (st_w st) r), st, []).

Definition time_Now : M Z := fun st => (Return (clock (st_w st)), st, []).

Definition time_Since (start : Z) : M Z := fun st =>
  (Return (clock (st_w st) - start), st, []).

(** [r.WithContext(ctx)]: a shallow copy of the request with a new context,
    at a fresh address. *)
Definition r_WithContext (r : nat) (ctx : context_Context) : M nat := fun st =>
  let old := load (st_w st) r in
  let new := {| reqContext := ctx; Header := Header old;
                RemoteAddr := RemoteAddr old |} in
  (Return (length (requests (st_w st))),
   {| st_c := st_c st; st_w := set_requests (fun h => h ++ [new]) (st_w st) |},
   []).

(** [c.SetRequest(r)]. *)
Definition c_SetRequest (r : nat) : M unit := fun st =>
  let c := st_c st in
  (Return tt,
   {| st_c := {| Method := Method c; Path := Path c; Route := Route c;
                 StatusCode := StatusCode c; Request := r |};
      st_w := st_w st |},
   [EvSetRequest r]).

(** Calls on the collaborators. *)
Definition prop_Extract (prop : propagation_TextMapPropagator)
    (ctx : context_Context) (carrier : http_Header) : M context_Context :=
  fun st => (Return (Extract prop ctx carrier), st, [EvExtract ctx carrier]).

Definition tracer_Start (tracer : trace_Tracer) (ctx : context_Context)
    (name : string) (kind : trace_SpanKind) : M (context_Context * trace_Span) :=
  fun st =>
    match Start tracer ctx name kind (st_w st) with
    | (ctx', sp, w') =>
        (Return (ctx', sp), {| st_c := st_c st; st_w := w' |},
         [EvStart ctx name kind sp])
    end.

Definition span_call (sp : trace_Span) (op : SpanOp) (ev : Event) : M unit :=
  fun st =>
    (Return tt, {| st_c := st_c st; st_w := span_do sp op (st_w st) |}, [ev]).

Definition span_SetAttributes (sp : trace_Span) (attrs : list attribute_KeyValue)
  : M unit :=
  span_call sp (OpSetAttributes attrs) (EvSetAttributes sp attrs).

Definition span_SetStatus (sp : trace_Span) (code : codes_Code) (desc : string)
  : M unit :=
  span_call sp (OpSetStatus code desc) (EvSetStatus sp code desc).

Definition span_RecordError (sp : trace_Span) (err : string) : M unit :=
  span_call sp (OpRecordError err) (EvRecordError sp err).

Definition span_End (sp : trace_Span) : M unit :=
  span_call sp OpEnd (EvEnd sp).

(** [next(c)]: the inner handler runs on the current state. *)
Definition call_next (next : flash_Handler) : M error := fun st =>
  match next st with
  | (out, st') => (out, st', [EvCallNext (st_c st); EvNextDone out])
  end.

(** ** The middleware *)

Local Open Scope go_scope.

(** [defaultSpanName] (otel.go, lines 59-65). *)
Definition defaultSpanName (c : flash_Ctx) : string :=
  let name := Method c +:+ " " +:+ Path c in
  let rt := Route c in
  if negb (rt =? "")%string then Method c +:+ " " +:+ rt else name.

(** Lines 84-89: the span name, the configured function's when it gives a
    non-empty one. *)
Definition buildSpanName (cfg : OTelConfig) (st : State) : string :=
  let name := defaultSpanName (st_c st) in
  match SpanNameFunc cfg with
  | Some f => let n := f st in if negb (n =? "")%string then n else name
  | None => name
  end.

(** Lines 81-93: read the request, build the span name, extract the remote
    context and start a server span.  Returns the request pointer [r], the
    context [reqCtx] that carries the new span, and the span. *)
Definition startSpan (tracer : trace_Tracer) (prop : propagation_TextMapPropagator)
    (cfg : OTelConfig) : M (nat * context_Context * trace_Span) :=
  r <- c_Request ;;
  st <- get_State ;;
  let name := buildSpanName cfg st in
  rq <- deref r ;;
  reqCtx <- prop_Extract prop (reqContext rq) (Header rq) ;;
  started <- tracer_Start tracer reqCtx name SpanKindServer ;;
  ret (r, fst started, snd started).

(** Lines 97-98: propagate the context into the request for downstream
    calls.  Returns the new request pointer, the value of [r] from then on. *)
Definition installContext (r : nat) (reqCtx : context_Context) : M nat :=
  r <- r_WithContext r reqCtx ;;
  c_SetRequest r ;;
  ret r.

(** Lines 104-107: the status the handler wrote, 200 when it wrote none. *)
Definition effectiveStatus (c : flash_Ctx) : Z :=
  let status := StatusCode c in
  if status =? 0 then http_StatusOK else status.

(** Lines 110-130: the attributes, computed after the handler.  [rq] is
    the request behind the local [r]. *)
Definition buildAttributes (cfg : OTelConfig) (st : State) (rq : http_Request)
    (status elapsed : Z) : list attribute_KeyValue :=
  let c := st_c st in
  let attrs := [ attribute_String "http.method" (Method c);
                 attribute_String "http.target" (Path c);
                 attribute_String "net.peer.addr" (RemoteAddr rq) ] in
  let attrs :=
    let rt := Route c in
    if negb (rt =? "")%string
    then attrs ++ [attribute_String "http.route" rt] else attrs in
  let attrs :=
    if negb (ServiceName cfg =? "")%string
    then attrs ++ [attribute_String "service.name" (ServiceName cfg)] else attrs in
  let attrs :=
    match AttributesFunc cfg with
    | Some f => attrs ++ f st
    | None => attrs
    end in
  let attrs :=
    if (0 <? length (ExtraAttributes cfg))%nat
    then attrs ++ ExtraAttributes cfg else attrs in
  let attrs := attrs ++ [attribute_Int "http.status_code" status] in
  let attrs :=
    if RecordDuration cfg
    then attrs ++ [attribute_Float64 "http.server.duration_ms"
                     elapsed time_Millisecond]
    else attrs in
  attrs.

(** Lines 134-137: the span status, the configured function's when there
    is one. *)
Definition spanStatus (cfg : OTelConfig) (status : Z) (err : error)
  : codes_Code * string :=
  let cd := defaultStatus status err in
  match StatusFunc cfg with
  | Some f => f status err
  | None => cd
  end.

(** Lines 100-143: run the inner handler, then set attributes, status and
    the error on the span, and return the handler's error. *)
Definition delegate (cfg : OTelConfig) (next : flash_Handler) (r : nat)
    (span : trace_Span) : M error :=
  start <- time_Now ;;
  err <- call_next next ;;
  elapsed <- time_Since start ;;
  st <- get_State ;;
  let status := effectiveStatus (st_c st) in
  rq <- deref r ;;
  let attrs := buildAttributes cfg st rq status elapsed in
  span_SetAttributes span attrs ;;
  let cd := spanStatus cfg status err in
  span_SetStatus span (fst cd) (snd cd) ;;
  match err with
  | Some e => span_RecordError span e
  | None => ret tt
  end ;;
  ret err.

(** Lines 81-94: start the span and defer its end; [body] is the code that
    follows the [defer] statement, run with the local [r], [reqCtx] and
    [span]. *)
Definition withSpan (tracer : trace_Tracer) (prop : propagation_TextMapPropagator)
    (cfg : OTelConfig) (body : nat -> context_Context -> trace_Span -> M error)
  : M error :=
  s <- startSpan tracer prop cfg ;;
  let r := fst (fst s) in
  let reqCtx := snd (fst s) in
  let span := snd s in
  defer_ (span_End span) (body r reqCtx span).

(** Lines 81-143, the traced path. *)
Definition traced (tracer : trace_Tracer) (prop : propagation_TextMapPropagator)
    (cfg : OTelConfig) (next : flash_Handler) : M error :=
  withSpan tracer prop cfg
    (fun r reqCtx span =>
       r <- installContext r reqCtx ;;
       delegate cfg next r span).

(** Lines 50-57: the tracer and the propagator of the configuration, or
    the global ones. *)
Definition resolveTracer (g : otel_Globals) (cfg : OTelConfig) : trace_Tracer :=
  match Tracer cfg with
  | Some t => t
  | None => otel_Tracer g "GoFlash"
  end.

Definition resolvePropagator (g : otel_Globals) (cfg : OTelConfig)
  : propagation_TextMapPropagator :=
  match Propagator cfg with
  | Some p => p
  | None => otel_GetTextMapPropagator g
  end.

(** Line 77: [cfg.FilterFunc != nil && cfg.FilterFunc(c)]. *)
Definition skipsTracing (cfg : OTelConfig) (st : State) : bool :=
  match FilterFunc cfg with
  | Some f => f st
  | None => false
  end.

(** [OTelWithConfig] (otel.go, lines 49-146), with the log of its calls. *)
Definition OTelWithConfig_run (g : otel_Globals) (cfg : OTelConfig)
    (next : flash_Handler) : M error :=
  let tracer := resolveTracer g cfg in
  let prop := resolvePropagator g cfg in
  st <- get_State ;;
  if skipsTracing cfg st
  then call_next next
  else traced tracer prop cfg next.

(** [OTelWithConfig] as a [flash.Middleware]: handler to handler. *)
Definition OTelWithConfig (g : otel_Globals) (cfg : OTelConfig)
    (next : flash_Handler) : flash_Handler := fun st =>
  fst (OTelWithConfig_run g cfg next st).

(** [OTel] (otel.go, lines 44-46). *)
Definition OTel (g : otel_Globals) (serviceName : string)
    (extraAttrs : list attribute_KeyValue) : flash_Handler -> flash_Handler :=
  OTelWithConfig g
    {| Tracer := None; Propagator := None; FilterFunc := None;
       SpanNameFunc := None; AttributesFunc := None; StatusFunc := None;
       RecordDuration := false; ServiceName := serviceName;
       ExtraAttributes := extraAttrs |}.

(** ** The helpers for handler code (otel.go, lines 150-164) *)

(** [Span]. *)
Definition Span (st : State) : trace_Span :=
  trace_SpanFromContext (reqContext (load (st_w st) (Request (st_c st)))).

(** [AddAttributes]. *)
Definition AddAttributes (attrs : list attribute_KeyValue) (st : State)
  : Outcome unit * State :=
  (Return tt,
   {| st_c := st_c st;
      st_w := span_do (Span st) (OpSetAttributes attrs) (st_w st) |}).

(** [AddEvent]. *)
Definition AddEvent (name : string) (attrs : list attribute_KeyValue) (st : State)
  : Outcome unit * State :=
  (Return tt,
   {| st_c := st_c st;
      st_w := span_do (Span st) (OpAddEvent name attrs) (st_w st) |}).

(** ** Sample collaborators, for running the model *)

(** A recording tracer in the manner of the SDK: the new span goes to the
    end of the span store. *)
Definition sdkTracer : trace_Tracer :=
  {| Start := fun ctx name kind w =>
       let sp := recordingSpan (length (spans w)) in
       (trace_ContextWithSpan ctx sp, sp,
        set_spans (fun l => l ++ [{| spName := name; spKind := kind;
                                     spParent := ctx; spOps := [] |}]) w) |}.

(** The no-op tracer of the trace package. *)
Definition noopTracer : trace_Tracer :=
  {| Start := fun ctx _ _ w => (trace_ContextWithSpan ctx noopSpan, noopSpan, w) |}.

(** A propagator that reads the [traceparent] header. *)
Fixpoint header_Get (h : http_Header) (key : string) : option string :=
  match h with
  | [] => None
  | (k, vs) :: h' =>
      if (k =? key)%string then head vs else header_Get h' key
  end.

Definition traceContext : propagation_TextMapPropagator :=
  {| Extract := fun ctx carrier =>
       match header_Get carrier "traceparent" with
       | Some v => {| ctxSpan := ctxSpan ctx; ctxRemote := Some v |}
       | None => ctx
       end |}.

Definition sdkGlobals : otel_Globals :=
  {| otel_Tracer := fun _ => sdkTracer;
     otel_GetTextMapPropagator := traceContext |}.

Definition noopGlobals : otel_Globals :=
  {| otel_Tracer := fun _ => noopTracer;
     otel_GetTextMapPropagator := {| Extract := fun ctx _ => ctx |} |}.

(** A request [GET /u/1] as flash hands it to the first middleware, before
    routing has filled in the route. *)
Definition sampleState : State :=
  {| st_c := {| Method := "GET"; Path := "/u/1"; Route := "";
                StatusCode := 0; Request := 0%nat |};
     st_w := {| spans := [];
                requests := [ {| reqContext := context_Background;
                                 Header := [("traceparent", ["00-abc-def-01"])];
                                 RemoteAddr := "10.0.0.7:5000" |} ];
                clock := 1000 |} |}.

Definition set_route_status (rt : string) (code : Z) (dt : Z) (st : State)
  : State :=
  let c := st_c st in
  let w := st_w st in
  {| st_c := {| Method := Method c; Path := Path c; Route := rt;
                StatusCode := code; Request := Request c |};
     st_w := {| spans := spans w; requests := requests w;
                clock := clock w + dt |} |}.

(** Handlers: the router matches [/u/:id] while the handler runs; one
    writes 200, one returns an error without writing, one panics. *)
Definition okHandler : flash_Handler := fun st =>
  (Return None, set_route_status "/u/:id" 200 2500000 st).

Definition boomHandler : flash_Handler := fun st =>
  (Return (Some "boom"), set_route_status "/u/:id" 0 1 st).

Definition panicHandler : flash_Handler := fun st =>
  (Panic "nil map", set_route_status "/u/:id" 0 1 st).

Definition plainConfig : OTelConfig :=
  {| Tracer := None; Propagator := None; FilterFunc := None;
     SpanNameFunc := None; AttributesFunc := None; StatusFunc := None;
     RecordDuration := false; ServiceName := "svc";
     ExtraAttributes := [] |}.


(** ** Observing a run *)

Definition is_Extract (e : Event) : bool :=
  match e with EvExtract _ _ => true | _ => false end.
Definition is_Start (e : Event) : bool :=
  match e with EvStart _ _ _ _ => true | _ => false end.
Definition is_SetAttributes (e : Event) : bool :=
  match e with EvSetAttributes _ _ => true | _ => false end.
Definition is_SetStatus (e : Event) : bool :=
  match e with EvSetStatus _ _ _ => true | _ => false end.
Definition is_RecordError (e : Event) : bool :=
  match e with EvRecordError _ _ => true | _ => false end.
Definition is_End (e : Event) : bool :=
  match e with EvEnd _ => true | _ => false end.

(** How many calls of a kind a log holds. *)
Fixpoint count (p : Event -> bool) (tr : list Event) : nat :=
  match tr with
  | [] => 0%nat
  | e :: tr' => ((if p e then 1 else 0) + count p tr')%nat
  end.

(** The traced path up to the call of the inner handler (lines 81-98),
    without the deferred call: it yields the local [r] and the span. *)
Definition enter (g : otel_Globals) (cfg : OTelConfig) : M (nat * trace_Span) :=
  s <- startSpan (resolveTracer g cfg) (resolvePropagator g cfg) cfg ;;
  r <- installContext (fst (fst s)) (snd (fst s)) ;;
  ret (r, snd s).

(** The state the inner handler is called on, the log up to there, and the
    local [r] and the span of the traced path. *)
Definition entryState (g : otel_Globals) (cfg : OTelConfig) (st : State) : State :=
  snd (fst (enter g cfg st)).

Definition entryLog (g : otel_Globals) (cfg : OTelConfig) (st : State)
  : list Event :=
  snd (enter g cfg st).

Definition entryRequest (g : otel_Globals) (cfg : OTelConfig) (st : State) : nat :=
  match fst (fst (enter g cfg st)) with
  | Return rs => fst rs
  | Panic _ => 0%nat
  end.

Definition entrySpan (g : otel_Globals) (cfg : OTelConfig) (st : State)
  : trace_Span :=
  match fst (fst (enter g cfg st)) with
  | Return rs => snd rs
  | Panic _ => noopSpan
  end.

(** The calls of the finalizing step (lines 132-141) for a handler that ran
    from [st1] to [st2] and returned [err]. *)
Definition finalCalls (cfg : OTelConfig) (sp : trace_Span) (r : nat)
    (st1 st2 : State) (err : error) : list Event :=
  let status := effectiveStatus (st_c st2) in
  let attrs := buildAttributes cfg st2 (load (st_w st2) r) status
                 (clock (st_w st2) - clock (st_w st1)) in
  let cd := spanStatus cfg status err in
  [EvSetAttributes sp attrs; EvSetStatus sp (fst cd) (snd cd)]
  ++ match err with
     | Some e => [EvRecordError sp e]
     | None => []
     end.

(** The arguments of the calls of a kind, in call order. *)
Definition startedNames (tr : list Event) : list string :=
  omap (fun e => match e with EvStart _ name _ _ => Some name | _ => None end) tr.

Definition attributesSet (tr : list Event) : list (list attribute_KeyValue) :=
  omap (fun e => match e with EvSetAttributes _ a => Some a | _ => None end) tr.

Definition statusesSet (tr : list Event) : list (codes_Code * string) :=
  omap (fun e => match e with EvSetStatus _ c d => Some (c, d) | _ => None end) tr.

Definition errorsRecorded (tr : list Event) : list string :=
  omap (fun e => match e with EvRecordError _ e' => Some e' | _ => None end) tr.

(** Configurations with a custom status function and a custom name. *)
Definition alwaysOkConfig : OTelConfig :=
  {| Tracer := None; Propagator := None; FilterFunc := None;
     SpanNameFunc := None; AttributesFunc := None;
     StatusFunc := Some (fun _ _ => (codes_Ok, ""));
     RecordDuration := false; ServiceName := "svc2";
     ExtraAttributes := [] |}.

Definition customNameConfig : OTelConfig :=
  {| Tracer := None; Propagator := None; FilterFunc := None;
     SpanNameFunc := Some (fun _ => "CUSTOM NAME");
     AttributesFunc := None; StatusFunc := None;
     RecordDuration := false; ServiceName := "svc3";
     ExtraAttributes := [] |}.

(** A configuration with every option set: health checks are skipped, the
    name function returns the empty string, durations are recorded, client
    errors are mapped to Error. *)
Definition optionsConfig : OTelConfig :=
  {| Tracer := None; Propagator := None;
     FilterFunc := Some (fun st => (Path (st_c st) =? "/healthz")%string);
     SpanNameFunc := Some (fun _ => "");
     AttributesFunc := Some (fun _ => [attribute_String "custom.attr" "v"]);
     StatusFunc := Some (fun code err =>
       if (400 <=? code) && (code <? 500) then (codes_Error, "client error")
       else if negb (is_nil err) || (500 <=? code)
            then (codes_Error, http_StatusText code)
            else (codes_Ok, ""));
     RecordDuration := true; ServiceName := "svc";
     ExtraAttributes := [attribute_String "extra.attr" "x"] |}.

Definition healthState : State :=
  {| st_c := {| Method := "GET"; Path := "/healthz"; Route := "";
                StatusCode := 0; Request := 0%nat |};
     st_w := st_w sampleState |}.

(** ** Contracts of the collaborators, and user code of the examples *)

(** The contract of [Tracer.Start] in the trace package: the context it
    returns carries the span it returns. *)
Definition tracerInstallsSpan (t : trace_Tracer) : Prop :=
  forall ctx name kind w,
    ctxSpan (fst (fst (Start t ctx name kind w)))
    = Some (snd (fst (Start t ctx name kind w))).

(** A tracer that leaves the request objects alone. *)
Definition tracerKeepsRequests (t : trace_Tracer) : Prop :=
  forall ctx name kind w, requests (snd (Start t ctx name kind w)) = requests w.


(** What the finalizing step tells the span (lines 132-141) and the
    deferred call after it (line 94), for a handler that ran from [st1] to
    [st2] and returned [err]. *)
Definition finalOps (cfg : OTelConfig) (r : nat) (st1 st2 : State) (err : error)
  : list SpanOp :=
  let status := effectiveStatus (st_c st2) in
  let attrs := buildAttributes cfg st2 (load (st_w st2) r) status
                 (clock (st_w st2) - clock (st_w st1)) in
  let cd := spanStatus cfg status err in
  [OpSetAttributes attrs; OpSetStatus (fst cd) (snd cd)]
  ++ match err with
     | Some e => [OpRecordError e]
     | None => []
     end
  ++ [OpEnd].

(** A span told a sequence of operations, in order. *)
Definition span_do_all (sp : trace_Span) (ops : list SpanOp) (w : World) : World :=
  fold_left (fun w' op => span_do sp op w') ops w.

(** The journal of a span record extended by a sequence of operations. *)
Definition journal_all (ops : list SpanOp) (rec : SpanRecord) : SpanRecord :=
  {| spName := spName rec; spKind := spKind rec; spParent := spParent rec;
     spOps := spOps rec ++ ops |}.

(** examples/complex/main.go, line 53: the filter of the example. *)
Definition exampleFilterFunc (st : State) : bool :=
  (Path (st_c st) =? "/healthz")%string.

(** examples/complex/main.go, lines 55-60: the name function of the
    example. *)
Definition exampleSpanNameFunc (st : State) : string :=
  let c := st_c st in
  let r := Route c in
  if negb (r =? "")%string
  then Method c +:+ " " +:+ r
  else Method c +:+ " " +:+ Path c.

(** examples/complex/main.go, lines 69-77: the status function of the
    example (the same function is in otel_test.go, lines 52-60). *)
Definition exampleStatusFunc (code : Z) (err : error) : codes_Code * string :=
  if (400 <=? code) && (code <? 500)
  then (codes_Error, "client error")
  else if negb (is_nil err) || (500 <=? code)
       then (codes_Error, http_StatusText code)
       else (codes_Ok, "").

(** A handler that sets attributes and an event on the current span, as
    the handlers of the /attrs routes do, and returns nil. *)
Definition attrsHandler (attrs : list attribute_KeyValue) (name : string)
    (evattrs : list attribute_KeyValue) : flash_Handler := fun st =>
  let st1 := snd (AddAttributes attrs st) in
  let st2 := snd (AddEvent name evattrs st1) in
  (Return None, st2).

(** A configuration that only names the recording tracer, and one with the
    functions of the example. *)
Definition sdkConfig : OTelConfig :=
  {| Tracer := Some sdkTracer; Propagator := Some traceContext;
     FilterFunc := None; SpanNameFunc := None; AttributesFunc := None;
     StatusFunc := None; RecordDuration := true; ServiceName := "";
     ExtraAttributes := [] |}.

Definition exampleConfig : OTelConfig :=
  {| Tracer := None; Propagator := None;
     FilterFunc := Some exampleFilterFunc;
     SpanNameFunc := Some exampleSpanNameFunc;
     AttributesFunc := None;
     StatusFunc := Some exampleStatusFunc;
     RecordDuration := true; ServiceName := "example-complex";
     ExtraAttributes := [attribute_String "app.region" "local"] |}.

(** The state of a handler under the recording tracer. *)
Definition tracedSampleState : State := entryState sdkGlobals plainConfig sampleState.

(** A handler that writes 404 and returns nil. *)
Definition notFoundHandler : flash_Handler := fun st =>
  (Return None, set_route_status "" 404 10 st).

(** Proof step: run the traced path up to and over the call of the inner
    handler, given that the filter does not skip and what the handler does. *)
Ltac run_traced Hskip Hnext :=
  unfold entryRequest, entrySpan, entryState, entryLog in *;
  unfold OTelWithConfig_run, traced, withSpan, delegate, finalCalls, defer_,
    call_next, time_Now, time_Since, span_SetAttributes, span_SetStatus,
    span_RecordError, span_End, span_call;
  unfold bind at 1; unfold get_State at 1; rewrite Hskip;
  revert Hnext;
  unfold enter, startSpan, installContext, bind, c_Request, get_State, deref,
    prop_Extract, tracer_Start, r_WithContext, c_SetRequest, ret;
  cbn;
  destruct (Start _ _ _ _ _) as [[? ?] ?];
  cbn; intros Hnext; rewrite Hnext; cbn.

(** ** Properties *)

(** *** The shape of a run *)

Section Run.
Variables (g : otel_Globals) (cfg : OTelConfig) (next : flash_Handler).

Lemma enter_returns (st : State) :
  enter g cfg st =
    (Return (entryRequest g cfg st, entrySpan g cfg st),
     entryState g cfg st, entryLog g cfg st).
Proof.
  unfold entryRequest, entrySpan, entryState, entryLog.
  unfold enter, startSpan, installContext, bind, c_Request, get_State, deref,
    prop_Extract, tracer_Start, r_WithContext, c_SetRequest, ret.
  cbn.
  destruct (Start (resolveTracer g cfg) _ _ _ _) as [[ctx1 sp] w1].
  reflexivity.
Qed.

Lemma entryLog_eq (st : State) :
  exists ctx parent carrier,
    entryLog g cfg st =
      [EvExtract ctx carrier;
       EvStart parent (buildSpanName cfg st) SpanKindServer (entrySpan g cfg st);
       EvSetRequest (entryRequest g cfg st)].
Proof.
  unfold entryRequest, entrySpan, entryLog.
  unfold enter, startSpan, installContext, bind, c_Request, get_State, deref,
    prop_Extract, tracer_Start, r_WithContext, c_SetRequest, ret.
  cbn.
  destruct (Start (resolveTracer g cfg) _ _ _ _) as [[ctx1 sp] w1].
  cbn. eauto.
Qed.

Lemma entryState_ctx (st : State) :
  let c := st_c st in
  st_c (entryState g cfg st) =
    {| Method := Method c; Path := Path c; Route := Route c;
       StatusCode := StatusCode c; Request := entryRequest g cfg st |}.
Proof.
  unfold entryRequest, entryState.
  unfold enter, startSpan, installContext, bind, c_Request, get_State, deref,
    prop_Extract, tracer_Start, r_WithContext, c_SetRequest, ret.
  cbn.
  destruct (Start (resolveTracer g cfg) _ _ _ _) as [[ctx1 sp] w1].
  reflexivity.
Qed.

(** A traced run whose handler returns. *)
Lemma traced_return_run (st st2 : State) (err : error) :
  skipsTracing cfg st = false ->
  next (entryState g cfg st) = (Return err, st2) ->
  exists st3,
    st_c st3 = st_c st2
    /\ OTelWithConfig_run g cfg next st =
         (Return err, st3,
          entryLog g cfg st
          ++ [EvCallNext (st_c (entryState g cfg st)); EvNextDone (Return err)]
          ++ finalCalls cfg (entrySpan g cfg st) (entryRequest g cfg st)
               (entryState g cfg st) st2 err
          ++ [EvEnd (entrySpan g cfg st)]).
Proof.
  intros Hskip Hnext. run_traced Hskip Hnext.
  destruct err as [e|]; cbn; eexists; (split; [|reflexivity]); reflexivity.
Qed.

(** A traced run whose handler panics. *)
Lemma traced_panic_run (st st2 : State) (v : string) :
  skipsTracing cfg st = false ->
  next (entryState g cfg st) = (Panic v, st2) ->
  exists st3,
    st_c st3 = st_c st2
    /\ OTelWithConfig_run g cfg next st =
         (Panic v, st3,
          entryLog g cfg st
          ++ [EvCallNext (st_c (entryState g cfg st)); EvNextDone (Panic v)]
          ++ [EvEnd (entrySpan g cfg st)]).
Proof.
  intros Hskip Hnext. run_traced Hskip Hnext.
  eexists; (split; [|reflexivity]); reflexivity.
Qed.

(** The filtered path is the inner handler and nothing else. *)
Lemma filtered_run (st : State) :
  skipsTracing cfg st = true ->
  OTelWithConfig_run g cfg next st =
    (fst (next st), snd (next st),
     [EvCallNext (st_c st); EvNextDone (fst (next st))]).
Proof.
  intros Hskip.
  unfold OTelWithConfig_run, bind, get_State, call_next.
  rewrite Hskip. destruct (next st) as [out st']. reflexivity.
Qed.
End Run.

Lemma count_app (p : Event -> bool) (l1 l2 : list Event) :
  count p (l1 ++ l2) = (count p l1 + count p l2)%nat.
Proof.
  induction l1 as [|e l1 IH]; cbn; [reflexivity|]. rewrite IH. lia.
Qed.

(** "The filter is absent or returns false" is the negation of the test of
    line 77. *)
Lemma not_filtered (cfg : OTelConfig) (st : State) :
  (FilterFunc cfg = None \/ exists f, FilterFunc cfg = Some f /\ f st = false) ->
  skipsTracing cfg st = false.
Proof.
  unfold skipsTracing. intros [H | (f & H & Hf)]; rewrite H; auto.
Qed.

(** The span that [withSpan] hands to its body is ended once, last, whatever
    the body does. *)
Lemma withSpan_log (g : otel_Globals) (cfg : OTelConfig)
    (body : nat -> context_Context -> trace_Span -> M error) (st : State) :
  let tracer := resolveTracer g cfg in
  let prop := resolvePropagator g cfg in
  exists (r : nat) (reqCtx : context_Context) (st1 : State),
    fst (fst (startSpan tracer prop cfg st))
      = Return (r, reqCtx, entrySpan g cfg st)
    /\ snd (fst (startSpan tracer prop cfg st)) = st1
    /\ fst (fst (withSpan tracer prop cfg body st))
       = fst (fst (body r reqCtx (entrySpan g cfg st) st1))
    /\ snd (withSpan tracer prop cfg body st)
       = snd (startSpan tracer prop cfg st)
         ++ snd (body r reqCtx (entrySpan g cfg st) st1)
         ++ [EvEnd (entrySpan g cfg st)]
    /\ count is_Start (snd (startSpan tracer prop cfg st)) = 1%nat
    /\ count is_End (snd (startSpan tracer prop cfg st)) = 0%nat.
Proof.
  cbn zeta. unfold entrySpan, withSpan, defer_, span_End, span_call.
  unfold enter, startSpan, installContext, bind, c_Request, get_State, deref,
    prop_Extract, tracer_Start, r_WithContext, c_SetRequest, ret.
  cbn.
  destruct (Start (resolveTracer g cfg) _ _ _ _) as [[ctx1 sp] w1].
  cbn.
  exists (Request (st_c st)), ctx1, {| st_c := st_c st; st_w := w1 |}.
  destruct (body _ _ _ _) as [[out st2] t2]. cbn.
  repeat split; reflexivity.
Qed.
(** C1: the default status mapper returns (Error, reason phrase of the code)
    exactly when the error is non-nil or the code is at least 500, and
    (Ok, empty string) in every other case; a 404 without an error is Ok. *)
Theorem C1_defaultStatus_policy :
  forall (status : Z) (err : error),
    (defaultStatus status err = (codes_Error, http_StatusText status)
       <-> (err <> None \/ status >= 500))
    /\ (~ (err <> None \/ status >= 500) -> defaultStatus status err = (codes_Ok, ""))
    /\ defaultStatus 404 None = (codes_Ok, "").
Proof.
  intros status err. unfold defaultStatus.
  split; [|split; [|reflexivity]].
  - destruct err as [msg|]; cbn [is_nil negb orb].
    + split; [intros _; left; discriminate | reflexivity].
    + destruct (Z.leb_spec 500 status) as [Hge|Hlt].
      * split; [intros _; right; lia | reflexivity].
      * split; [discriminate | intros [H|H]; [congruence | lia]].
  - intros Hno. destruct err as [msg|]; cbn [is_nil negb orb].
    + exfalso. apply Hno. left. discriminate.
    + destruct (Z.leb_spec 500 status) as [Hge|Hlt]; [|reflexivity].
      exfalso. apply Hno. right. lia.
Qed.


(** C2: when the filter is absent or returns false, the middleware starts
    exactly one span and ends exactly one span, the one it started.  The end
    is the last call of the run: it comes after the inner handler is done
    and, when the handler returned, after the attributes and the status were
    set.  The end also happens when the handler panics, and more generally
    whatever the code under the deferred call does: any body run in place of
    lines 96-143, returning or panicking at any point, is followed by the
    one end of the span. *)
Theorem C2_one_span_started_and_ended :
  forall (g : otel_Globals) (cfg : OTelConfig) (next : flash_Handler) (st : State),
    (FilterFunc cfg = None \/ exists f, FilterFunc cfg = Some f /\ f st = false) ->
    let run := OTelWithConfig_run g cfg next st in
    let sp := entrySpan g cfg st in
    let out := fst (next (entryState g cfg st)) in
    count is_Start (snd run) = 1%nat
    /\ count is_End (snd run) = 1%nat
    /\ (exists pre fin,
          snd run = pre ++ [EvNextDone out] ++ fin ++ [EvEnd sp]
          /\ (exists parent name, In (EvStart parent name SpanKindServer sp) pre)
          /\ count is_End pre = 0%nat
          /\ match out with
             | Return err =>
                 fst (fst run) = Return err
                 /\ exists attrs code desc rest,
                      fin = EvSetAttributes sp attrs :: EvSetStatus sp code desc :: rest
             | Panic v => fst (fst run) = Panic v /\ fin = []
             end)
    /\ (forall body : nat -> context_Context -> trace_Span -> M error,
          let run' := withSpan (resolveTracer g cfg) (resolvePropagator g cfg)
                        cfg body st in
          exists r reqCtx st1 pre,
            snd run' = pre ++ snd (body r reqCtx sp st1) ++ [EvEnd sp]
            /\ fst (fst run') = fst (fst (body r reqCtx sp st1))
            /\ count is_Start pre = 1%nat
            /\ count is_End pre = 0%nat).
Proof.
  intros g cfg next st Hf run sp out.
  apply not_filtered in Hf.
  destruct (entryLog_eq g cfg st) as (ctx & parent & carrier & Hlog).
  split; [|split; [|split]].
  - subst run. destruct (next (entryState g cfg st)) as [[err|v] st2] eqn:Hnext.
    + destruct (traced_return_run g cfg next st st2 err Hf Hnext) as (st3 & _ & ->).
      cbn [snd]. rewrite Hlog. unfold finalCalls.
      destruct err; reflexivity.
    + destruct (traced_panic_run g cfg next st st2 v Hf Hnext) as (st3 & _ & ->).
      cbn [snd]. rewrite Hlog. reflexivity.
  - subst run. destruct (next (entryState g cfg st)) as [[err|v] st2] eqn:Hnext.
    + destruct (traced_return_run g cfg next st st2 err Hf Hnext) as (st3 & _ & ->).
      cbn [snd]. rewrite Hlog. unfold finalCalls.
      destruct err; reflexivity.
    + destruct (traced_panic_run g cfg next st st2 v Hf Hnext) as (st3 & _ & ->).
      cbn [snd]. rewrite Hlog. reflexivity.
  - subst run out. destruct (next (entryState g cfg st)) as [[err|v] st2] eqn:Hnext.
    + destruct (traced_return_run g cfg next st st2 err Hf Hnext) as (st3 & _ & ->).
      cbn [fst snd].
      exists (entryLog g cfg st ++ [EvCallNext (st_c (entryState g cfg st))]),
        (finalCalls cfg sp (entryRequest g cfg st) (entryState g cfg st) st2 err).
      split; [rewrite <- !app_assoc; reflexivity|].
      split; [exists parent, (buildSpanName cfg st); rewrite Hlog; cbn; auto|].
      split; [rewrite Hlog; reflexivity|].
      split; [reflexivity|]. unfold finalCalls. cbn. eauto.
    + destruct (traced_panic_run g cfg next st st2 v Hf Hnext) as (st3 & _ & ->).
      cbn [fst snd].
      exists (entryLog g cfg st ++ [EvCallNext (st_c (entryState g cfg st))]), [].
      split; [rewrite <- !app_assoc; reflexivity|].
      split; [exists parent, (buildSpanName cfg st); rewrite Hlog; cbn; auto|].
      split; [rewrite Hlog; reflexivity|].
      split; reflexivity.
  - intros body run'. subst run' sp.
    destruct (withSpan_log g cfg body st)
      as (r & reqCtx & st1 & _ & _ & Hout & Hlog' & Hs & He).
    exists r, reqCtx, st1, (snd (startSpan (resolveTracer g cfg)
                                   (resolvePropagator g cfg) cfg st)).
    auto.
Qed.

(** C2 at a request whose handler panics: the span is still ended. *)
Lemma C2_witness :
  (FilterFunc plainConfig = None
   \/ exists f, FilterFunc plainConfig = Some f /\ f sampleState = false)
  /\ count is_End
       (snd (OTelWithConfig_run sdkGlobals plainConfig panicHandler sampleState))
     = 1%nat.
Proof.
  split.
  - left. reflexivity.
  - exact (proj1 (proj2 (C2_one_span_started_and_ended sdkGlobals plainConfig
                           panicHandler sampleState (or_introl eq_refl)))).
Defined.

(** C3: when the configured filter returns true, the run is the inner
    handler called on the state as it came in, and its outcome and final
    state are the run's; the middleware calls nothing else: no extraction,
    no span start, no request replacement, no attributes, status or error
    set, no span end. *)
Theorem C3_filtered_request_passes_through :
  forall (g : otel_Globals) (cfg : OTelConfig) (next : flash_Handler) (st : State)
         (f : State -> bool),
    FilterFunc cfg = Some f ->
    f st = true ->
    OTelWithConfig g cfg next st = next st
    /\ snd (OTelWithConfig_run g cfg next st)
       = [EvCallNext (st_c st); EvNextDone (fst (next st))]
    /\ forall p, In p [is_Extract; is_Start; is_SetAttributes; is_SetStatus;
                       is_RecordError; is_End] ->
                 count p (snd (OTelWithConfig_run g cfg next st)) = 0%nat.
Proof.
  intros g cfg next st f Hcfg Hf.
  assert (Hskip : skipsTracing cfg st = true).
  { unfold skipsTracing. rewrite Hcfg. exact Hf. }
  unfold OTelWithConfig. rewrite (filtered_run g cfg next st Hskip). cbn [fst snd].
  split; [destruct (next st); reflexivity|].
  split; [reflexivity|].
  intros p Hp. cbn in Hp.
  destruct Hp as [<-|[<-|[<-|[<-|[<-|[<-|[]]]]]]]; reflexivity.
Qed.

(** C3 at a health check under the options configuration. *)
Lemma C3_witness :
  (FilterFunc optionsConfig
     = Some (fun st => (Path (st_c st) =? "/healthz")%string)
   /\ (Path (st_c healthState) =? "/healthz")%string = true)
  /\ OTelWithConfig sdkGlobals optionsConfig okHandler healthState
     = okHandler healthState.
Proof.
  split.
  - split; reflexivity.
  - exact (proj1 (C3_filtered_request_passes_through sdkGlobals optionsConfig
                    okHandler healthState _ eq_refl eq_refl)).
Defined.

(** The attribute list as the concatenation of its segments. *)
Lemma buildAttributes_segments (cfg : OTelConfig) (st : State) (rq : http_Request)
    (status elapsed : Z) :
  let c := st_c st in
  buildAttributes cfg st rq status elapsed =
    [attribute_String "http.method" (Method c);
     attribute_String "http.target" (Path c);
     attribute_String "net.peer.addr" (RemoteAddr rq)]
    ++ (if (Route c =? "")%string then []
        else [attribute_String "http.route" (Route c)])
    ++ (if (ServiceName cfg =? "")%string then []
        else [attribute_String "service.name" (ServiceName cfg)])
    ++ match AttributesFunc cfg with
       | Some f => f st
       | None => []
       end
    ++ ExtraAttributes cfg
    ++ [attribute_Int "http.status_code" status]
    ++ (if RecordDuration cfg
        then [attribute_Float64 "http.server.duration_ms" elapsed time_Millisecond]
        else []).
Proof.
  cbn zeta. unfold buildAttributes.
  assert (Hextra : forall l : list attribute_KeyValue,
             (if (0 <? length (ExtraAttributes cfg))%nat
              then l ++ ExtraAttributes cfg else l) = l ++ ExtraAttributes cfg).
  { intros l. destruct (ExtraAttributes cfg); cbn; [rewrite app_nil_r|]; reflexivity. }
  rewrite Hextra.
  destruct (Route (st_c st) =? "")%string; destruct (ServiceName cfg =? "")%string;
    destruct (AttributesFunc cfg); destruct (RecordDuration cfg); cbn;
    rewrite <- ?app_assoc, ?app_nil_r; reflexivity.
Qed.

(** What the span is told in a traced run whose handler returns. *)
Lemma traced_return_calls (g : otel_Globals) (cfg : OTelConfig)
    (next : flash_Handler) (st st2 : State) (err : error) :
  skipsTracing cfg st = false ->
  next (entryState g cfg st) = (Return err, st2) ->
  let log := snd (OTelWithConfig_run g cfg next st) in
  let status := effectiveStatus (st_c st2) in
  fst (fst (OTelWithConfig_run g cfg next st)) = Return err
  /\ startedNames log = [buildSpanName cfg st]
  /\ attributesSet log =
       [buildAttributes cfg st2 (load (st_w st2) (entryRequest g cfg st)) status
          (clock (st_w st2) - clock (st_w (entryState g cfg st)))]
  /\ statusesSet log = [spanStatus cfg status err]
  /\ errorsRecorded log = match err with Some e => [e] | None => [] end.
Proof.
  intros Hskip Hnext log status. subst log.
  destruct (traced_return_run g cfg next st st2 err Hskip Hnext) as (st3 & _ & ->).
  destruct (entryLog_eq g cfg st) as (ctx & parent & carrier & ->).
  cbn [fst snd]. unfold finalCalls. fold status.
  destruct (spanStatus cfg status err) as [code desc] eqn:Hcd.
  destruct err; cbn; auto.
Qed.

(** The name the span is started with does not depend on the handler. *)
Lemma traced_started_name (g : otel_Globals) (cfg : OTelConfig)
    (next : flash_Handler) (st : State) :
  skipsTracing cfg st = false ->
  startedNames (snd (OTelWithConfig_run g cfg next st)) = [buildSpanName cfg st].
Proof.
  intros Hskip.
  destruct (entryLog_eq g cfg st) as (ctx & parent & carrier & Hlog).
  destruct (next (entryState g cfg st)) as [[err|v] st2] eqn:Hnext.
  - destruct (traced_return_run g cfg next st st2 err Hskip Hnext) as (st3 & _ & ->).
    cbn [snd]. rewrite Hlog. unfold finalCalls. destruct err; reflexivity.
  - destruct (traced_panic_run g cfg next st st2 v Hskip Hnext) as (st3 & _ & ->).
    cbn [snd]. rewrite Hlog. reflexivity.
Qed.

(** A name built by the default rule is never empty. *)
Lemma defaultSpanName_not_empty (c : flash_Ctx) : defaultSpanName c <> "".
Proof.
  unfold defaultSpanName.
  destruct (negb (Route c =? "")%string); destruct (Method c); discriminate.
Qed.

(** C4: in a traced request, the error the inner handler returns is what
    the middleware returns, as it is.  A non-nil error is recorded on the
    span (one RecordError call, with this error) and the status set on the
    span is the status mapping in force applied to this error; under the
    default mapping that status is Error.  A nil error is not recorded. *)
Theorem C4_handler_error_returned_unchanged :
  forall (g : otel_Globals) (cfg : OTelConfig) (next : flash_Handler)
         (st st2 : State) (err : error),
    (FilterFunc cfg = None \/ exists f, FilterFunc cfg = Some f /\ f st = false) ->
    next (entryState g cfg st) = (Return err, st2) ->
    let log := snd (OTelWithConfig_run g cfg next st) in
    let sp := entrySpan g cfg st in
    let status := effectiveStatus (st_c st2) in
    fst (OTelWithConfig g cfg next st) = Return err
    /\ statusesSet log =
         [match StatusFunc cfg with
          | Some f => f status err
          | None => defaultStatus status err
          end]
    /\ match err with
       | Some e =>
           errorsRecorded log = [e]
           /\ In (EvRecordError sp e) log
           /\ (StatusFunc cfg = None ->
               statusesSet log = [(codes_Error, http_StatusText status)])
       | None => errorsRecorded log = []
       end.
Proof.
  intros g cfg next st st2 err Hf Hnext log sp status.
  apply not_filtered in Hf.
  destruct (traced_return_calls g cfg next st st2 err Hf Hnext)
    as (Hout & _ & _ & Hstatus & Herr).
  fold log status in Hstatus, Herr.
  split; [exact Hout|].
  split; [rewrite Hstatus; unfold spanStatus; destruct (StatusFunc cfg); reflexivity|].
  destruct err as [e|]; [|exact Herr].
  split; [exact Herr|]. split.
  - subst log.
    destruct (traced_return_run g cfg next st st2 (Some e) Hf Hnext)
      as (st3 & _ & ->).
    cbn [snd]. unfold finalCalls. rewrite !in_app_iff. right. right. left.
    cbn. auto.
  - intros Hnone. rewrite Hstatus. unfold spanStatus. rewrite Hnone. reflexivity.
Qed.

(** C4 at a handler that returns an error. *)
Lemma C4_witness :
  ((FilterFunc plainConfig = None
    \/ exists f, FilterFunc plainConfig = Some f /\ f sampleState = false)
   /\ boomHandler (entryState sdkGlobals plainConfig sampleState)
      = (Return (Some "boom"),
         snd (boomHandler (entryState sdkGlobals plainConfig sampleState))))
  /\ fst (OTelWithConfig sdkGlobals plainConfig boomHandler sampleState)
     = Return (Some "boom").
Proof.
  split.
  - split; [left; reflexivity | reflexivity].
  - exact (proj1 (C4_handler_error_returned_unchanged sdkGlobals plainConfig
                    boomHandler sampleState _ (Some "boom")
                    (or_introl eq_refl) eq_refl)).
Defined.

(** C5: in a traced request whose handler returns, the span is given one
    attribute list, assembled in this order: http.method, http.target and
    net.peer.addr; http.route when the route is not empty; service.name when
    the service name is not empty; the result of the attributes function
    when there is one; the extra attributes; http.status_code; and
    http.server.duration_ms when durations are recorded.  The list ends in
    the duration attribute exactly when RecordDuration is true. *)
Theorem C5_attributes_in_fixed_order :
  forall (g : otel_Globals) (cfg : OTelConfig) (next : flash_Handler)
         (st st2 : State) (err : error),
    (FilterFunc cfg = None \/ exists f, FilterFunc cfg = Some f /\ f st = false) ->
    next (entryState g cfg st) = (Return err, st2) ->
    let log := snd (OTelWithConfig_run g cfg next st) in
    let c := st_c st2 in
    let rq := load (st_w st2) (entryRequest g cfg st) in
    let elapsed := clock (st_w st2) - clock (st_w (entryState g cfg st)) in
    exists attrs,
      attributesSet log = [attrs]
      /\ attrs =
           [attribute_String "http.method" (Method c);
            attribute_String "http.target" (Path c);
            attribute_String "net.peer.addr" (RemoteAddr rq)]
           ++ (if (Route c =? "")%string then []
               else [attribute_String "http.route" (Route c)])
           ++ (if (ServiceName cfg =? "")%string then []
               else [attribute_String "service.name" (ServiceName cfg)])
           ++ match AttributesFunc cfg with
              | Some f => f st2
              | None => []
              end
           ++ ExtraAttributes cfg
           ++ [attribute_Int "http.status_code" (effectiveStatus c)]
           ++ (if RecordDuration cfg
               then [attribute_Float64 "http.server.duration_ms" elapsed
                       time_Millisecond]
               else [])
      /\ ((exists pre v, attrs = pre ++ [KeyValue "http.server.duration_ms" v])
          <-> RecordDuration cfg = true).
Proof.
  intros g cfg next st st2 err Hf Hnext log c rq elapsed.
  apply not_filtered in Hf.
  destruct (traced_return_calls g cfg next st st2 err Hf Hnext)
    as (_ & _ & Hattrs & _ & _).
  fold log c rq elapsed in Hattrs.
  eexists. split; [exact Hattrs|].
  pose proof (buildAttributes_segments cfg st2 rq (effectiveStatus c) elapsed) as Hseg.
  cbn zeta in Hseg. fold c in Hseg.
  split; [exact Hseg|].
  rewrite Hseg. clear Hseg Hattrs.
  destruct (RecordDuration cfg).
  - split; [reflexivity|]. intros _.
    eexists _, _. rewrite !app_assoc. reflexivity.
  - split; [|discriminate]. intros (pre & v & Heq).
    rewrite app_nil_r, !app_assoc in Heq.
    apply app_inj_tail in Heq. destruct Heq as [_ Heq]. discriminate Heq.
Qed.

(** C5 at a request with every option set. *)
Lemma C5_witness :
  ((FilterFunc optionsConfig = None
    \/ exists f, FilterFunc optionsConfig = Some f /\ f sampleState = false)
   /\ okHandler (entryState sdkGlobals optionsConfig sampleState)
      = (Return None, snd (okHandler (entryState sdkGlobals optionsConfig sampleState))))
  /\ exists attrs,
       attributesSet
         (snd (OTelWithConfig_run sdkGlobals optionsConfig okHandler sampleState))
       = [attrs]
       /\ attrs =
            [attribute_String "http.method" "GET";
             attribute_String "http.target" "/u/1";
             attribute_String "net.peer.addr" "10.0.0.7:5000";
             attribute_String "http.route" "/u/:id";
             attribute_String "service.name" "svc";
             attribute_String "custom.attr" "v";
             attribute_String "extra.attr" "x";
             attribute_Int "http.status_code" 200;
             attribute_Float64 "http.server.duration_ms" 2500000 1000000].
Proof.
  split.
  - split; [right; eexists; split; reflexivity | reflexivity].
  - destruct (C5_attributes_in_fixed_order sdkGlobals optionsConfig okHandler
                sampleState _ None
                (or_intror (ex_intro _ _ (conj eq_refl eq_refl))) eq_refl)
      as (attrs & Hset & Heq & _).
    exists attrs. split; [exact Hset|]. rewrite Heq. reflexivity.
Defined.

(** C6, as stated, fails where a status function is configured: the handler
    writes no status and returns an error, the effective status is 200, and
    the configured function maps it to Ok; no Error status is set. *)
Lemma C6_counterexample :
  let st1 := entryState sdkGlobals alwaysOkConfig sampleState in
  let log := snd (OTelWithConfig_run sdkGlobals alwaysOkConfig boomHandler
                    sampleState) in
  FilterFunc alwaysOkConfig = None
  /\ fst (boomHandler st1) = Return (Some "boom")
  /\ StatusCode (st_c (snd (boomHandler st1))) = 0
  /\ statusesSet log = [(codes_Ok, "")]
  /\ ~ (exists desc, In (codes_Error, desc) (statusesSet log)).
Proof.
  cbn zeta. repeat split.
  intros (desc & [H|[]]). discriminate H.
Qed.

(** C6 (amended): in a traced request whose handler wrote no status, the
    effective status is 200: the http.status_code attribute is 200 and the
    status mapping in force is applied to 200 and the handler's error.  When
    no status function is configured, a non-nil error gives the status
    (Error, reason phrase of 200).  The error is returned to the caller. *)
Theorem C6_unwritten_status_is_200 :
  forall (g : otel_Globals) (cfg : OTelConfig) (next : flash_Handler)
         (st st2 : State) (err : error),
    (FilterFunc cfg = None \/ exists f, FilterFunc cfg = Some f /\ f st = false) ->
    next (entryState g cfg st) = (Return err, st2) ->
    StatusCode (st_c st2) = 0 ->
    let log := snd (OTelWithConfig_run g cfg next st) in
    (exists attrs,
       attributesSet log = [attrs]
       /\ In (attribute_Int "http.status_code" 200) attrs)
    /\ statusesSet log =
         [match StatusFunc cfg with
          | Some f => f 200 err
          | None => defaultStatus 200 err
          end]
    /\ (StatusFunc cfg = None -> err <> None ->
        statusesSet log = [(codes_Error, "OK")])
    /\ fst (OTelWithConfig g cfg next st) = Return err.
Proof.
  intros g cfg next st st2 err Hf Hnext Hzero log.
  apply not_filtered in Hf.
  destruct (traced_return_calls g cfg next st st2 err Hf Hnext)
    as (Hout & _ & Hattrs & Hstatus & _).
  fold log in Hattrs, Hstatus.
  assert (Heff : effectiveStatus (st_c st2) = 200).
  { unfold effectiveStatus. rewrite Hzero. reflexivity. }
  rewrite Heff in Hattrs, Hstatus.
  split; [|split; [|split]].
  - eexists. split; [exact Hattrs|].
    rewrite buildAttributes_segments. rewrite !in_app_iff.
    do 5 right. left. cbn. auto.
  - rewrite Hstatus. unfold spanStatus. destruct (StatusFunc cfg); reflexivity.
  - intros Hnone Herr. rewrite Hstatus. unfold spanStatus. rewrite Hnone.
    destruct err; [reflexivity | congruence].
  - exact Hout.
Qed.

(** C6 (amended) at a handler that returns an error and writes no status. *)
Lemma C6_witness :
  ((FilterFunc plainConfig = None
    \/ exists f, FilterFunc plainConfig = Some f /\ f sampleState = false)
   /\ boomHandler (entryState sdkGlobals plainConfig sampleState)
      = (Return (Some "boom"),
         snd (boomHandler (entryState sdkGlobals plainConfig sampleState)))
   /\ StatusCode
        (st_c (snd (boomHandler (entryState sdkGlobals plainConfig sampleState))))
      = 0)
  /\ statusesSet
       (snd (OTelWithConfig_run sdkGlobals plainConfig boomHandler sampleState))
     = [(codes_Error, "OK")].
Proof.
  split.
  - split; [left; reflexivity | split; reflexivity].
  - refine (proj1 (proj2 (proj2 (C6_unwritten_status_is_200 sdkGlobals plainConfig
                    boomHandler sampleState _ (Some "boom")
                    (or_introl eq_refl) eq_refl eq_refl))) eq_refl _).
    discriminate.
Defined.

(** C7: in a traced request the span is started under one name.  It is the
    configured name function's value when that is not empty.  When no name
    function is configured, or it returns the empty string, the name is
    METHOD, a space and the route when the route is not empty, and METHOD, a
    space and the path otherwise.  The name is never empty. *)
Theorem C7_span_name :
  forall (g : otel_Globals) (cfg : OTelConfig) (next : flash_Handler) (st : State),
    (FilterFunc cfg = None \/ exists f, FilterFunc cfg = Some f /\ f st = false) ->
    let c := st_c st in
    exists name,
      startedNames (snd (OTelWithConfig_run g cfg next st)) = [name]
      /\ (forall f, SpanNameFunc cfg = Some f -> f st <> "" -> name = f st)
      /\ ((SpanNameFunc cfg = None
           \/ exists f, SpanNameFunc cfg = Some f /\ f st = "") ->
          name = if (Route c =? "")%string
                 then Method c +:+ " " +:+ Path c
                 else Method c +:+ " " +:+ Route c)
      /\ name <> "".
Proof.
  intros g cfg next st Hf c.
  apply not_filtered in Hf.
  exists (buildSpanName cfg st).
  split; [apply traced_started_name; exact Hf|].
  assert (Hdef : defaultSpanName c =
                 if (Route c =? "")%string
                 then Method c +:+ " " +:+ Path c
                 else Method c +:+ " " +:+ Route c).
  { unfold defaultSpanName. destruct (Route c =? "")%string; reflexivity. }
  unfold buildSpanName. fold c.
  split; [|split].
  - intros f Hcfg Hne. rewrite Hcfg. cbn zeta.
    destruct (String.eqb_spec (f st) ""); [contradiction | reflexivity].
  - intros [Hnone | (f & Hcfg & Hempty)].
    + rewrite Hnone. exact Hdef.
    + rewrite Hcfg. cbn zeta. rewrite Hempty. exact Hdef.
  - destruct (SpanNameFunc cfg) as [f|]; [|apply defaultSpanName_not_empty].
    cbn zeta. destruct (String.eqb_spec (f st) "") as [Heq|Hne];
      [apply defaultSpanName_not_empty | exact Hne].
Qed.

(** C7 at a name function that returns the empty string. *)
Lemma C7_witness :
  (FilterFunc optionsConfig = None
   \/ exists f, FilterFunc optionsConfig = Some f /\ f sampleState = false)
  /\ exists name,
       startedNames
         (snd (OTelWithConfig_run sdkGlobals optionsConfig okHandler sampleState))
       = [name]
       /\ name = "GET /u/1".
Proof.
  split.
  - right; eexists; split; reflexivity.
  - destruct (C7_span_name sdkGlobals optionsConfig okHandler sampleState
                (or_intror (ex_intro _ _ (conj eq_refl eq_refl))))
      as (name & Hstarted & _ & Hdefault & _).
    exists name. split; [exact Hstarted|].
    apply Hdefault. right. eexists; split; reflexivity.
Defined.

(** C8: with a status function configured, the status mapping is that
    function at every code and error, and in a traced request whose handler
    returns, the one status set on the span is the function's result at the
    effective status and the error the handler returned, as it is. *)
Theorem C8_custom_status_replaces_default :
  forall (g : otel_Globals) (cfg : OTelConfig) (next : flash_Handler)
         (st st2 : State) (err : error)
         (f : Z -> error -> codes_Code * string),
    StatusFunc cfg = Some f ->
    (FilterFunc cfg = None \/ exists p, FilterFunc cfg = Some p /\ p st = false) ->
    next (entryState g cfg st) = (Return err, st2) ->
    let log := snd (OTelWithConfig_run g cfg next st) in
    let status := effectiveStatus (st_c st2) in
    (forall (code : Z) (e : error), spanStatus cfg code e = f code e)
    /\ statusesSet log = [f status err]
    /\ In (EvSetStatus (entrySpan g cfg st) (fst (f status err)) (snd (f status err)))
          log.
Proof.
  intros g cfg next st st2 err f Hcfg Hf Hnext log status.
  apply not_filtered in Hf.
  assert (Hmap : forall code e, spanStatus cfg code e = f code e).
  { intros code e. unfold spanStatus. rewrite Hcfg. reflexivity. }
  destruct (traced_return_calls g cfg next st st2 err Hf Hnext)
    as (_ & _ & _ & Hstatus & _).
  fold log status in Hstatus. rewrite Hmap in Hstatus.
  split; [exact Hmap|]. split; [exact Hstatus|].
  subst log.
  destruct (traced_return_run g cfg next st st2 err Hf Hnext) as (st3 & _ & ->).
  cbn [snd]. unfold finalCalls. fold status. rewrite Hmap.
  rewrite !in_app_iff. right. right. left. cbn. auto.
Qed.

(** C8 at a status function that maps everything to Ok. *)
Lemma C8_witness :
  (StatusFunc alwaysOkConfig = Some (fun _ _ => (codes_Ok, ""))
   /\ (FilterFunc alwaysOkConfig = None
       \/ exists p, FilterFunc alwaysOkConfig = Some p /\ p sampleState = false)
   /\ boomHandler (entryState sdkGlobals alwaysOkConfig sampleState)
      = (Return (Some "boom"),
         snd (boomHandler (entryState sdkGlobals alwaysOkConfig sampleState))))
  /\ statusesSet
       (snd (OTelWithConfig_run sdkGlobals alwaysOkConfig boomHandler sampleState))
     = [(codes_Ok, "")].
Proof.
  split.
  - split; [reflexivity | split; [left; reflexivity | reflexivity]].
  - exact (proj1 (proj2 (C8_custom_status_replaces_default sdkGlobals
                           alwaysOkConfig boomHandler sampleState _ (Some "boom")
                           _ eq_refl (or_introl eq_refl) eq_refl))).
Defined.

(** C9: when the context of the current request holds no span, [Span]
    returns the no-op span, a span value that is not recording and on which
    every operation leaves the world as it was; [AddAttributes] and
    [AddEvent] return normally and leave the state as it was.  A filtered
    request is such a case when the request came in without a span: its
    handler runs on the state as it came in. *)
Theorem C9_helpers_without_active_span :
  forall st : State,
    ctxSpan (reqContext (load (st_w st) (Request (st_c st)))) = None ->
    Span st = noopSpan
    /\ IsRecording (Span st) (st_w st) = false
    /\ (forall op, span_do (Span st) op (st_w st) = st_w st)
    /\ (forall attrs, AddAttributes attrs st = (Return tt, st))
    /\ (forall name attrs, AddEvent name attrs st = (Return tt, st))
    /\ (forall g cfg next f,
          FilterFunc cfg = Some f -> f st = true ->
          OTelWithConfig g cfg next st = next st).
Proof.
  intros [c w] Hnone. cbn [st_c st_w] in Hnone.
  assert (Hspan : Span {| st_c := c; st_w := w |} = noopSpan).
  { unfold Span, trace_SpanFromContext. cbn [st_c st_w]. rewrite Hnone. reflexivity. }
  split; [exact Hspan|].
  split; [rewrite Hspan; reflexivity|].
  split; [intros op; rewrite Hspan; reflexivity|].
  split; [intros; unfold AddAttributes; rewrite Hspan; reflexivity|].
  split; [intros; unfold AddEvent; rewrite Hspan; reflexivity|].
  intros g cfg next f Hcfg Hf. unfold OTelWithConfig.
  rewrite filtered_run; [destruct (next _); reflexivity|].
  unfold skipsTracing. rewrite Hcfg. exact Hf.
Qed.

(** C9 at a request that no middleware has touched. *)
Lemma C9_witness :
  ctxSpan (reqContext (load (st_w sampleState) (Request (st_c sampleState)))) = None
  /\ AddAttributes [attribute_String "k" "v"] sampleState = (Return tt, sampleState)
  /\ AddEvent "evt" [] sampleState = (Return tt, sampleState).
Proof.
  split; [reflexivity|].
  pose proof (C9_helpers_without_active_span sampleState eq_refl)
    as (_ & _ & _ & Hattrs & Hevent & _).
  split; [apply Hattrs | apply Hevent].
Defined.

(** C10, as stated, fails where a name function is configured: the route
    is set during delegation and the http.route attribute carries it, but
    the span name is the configured one, not METHOD and the raw path. *)
Lemma C10_counterexample :
  let st1 := entryState sdkGlobals customNameConfig sampleState in
  let log := snd (OTelWithConfig_run sdkGlobals customNameConfig okHandler
                    sampleState) in
  FilterFunc customNameConfig = None
  /\ Route (st_c sampleState) = ""
  /\ Route (st_c (snd (okHandler st1))) = "/u/:id"
  /\ (exists attrs,
        attributesSet log = [attrs]
        /\ In (attribute_String "http.route" "/u/:id") attrs)
  /\ startedNames log = ["CUSTOM NAME"]
  /\ startedNames log <> [Method (st_c sampleState) +:+ " " +:+ Path (st_c sampleState)].
Proof.
  cbn zeta. split; [reflexivity|]. split; [reflexivity|]. split; [reflexivity|].
  split.
  - eexists. split; [reflexivity|]. cbn. auto.
  - split; [reflexivity | discriminate].
Qed.

(** C10 (amended): in a traced request the span name is built on the state
    before the inner handler is called; when the built-in naming applies (no
    name function, or one that returns the empty string) it is METHOD, a
    space and the route or, without a route, the path, as they are before
    the handler is called.  The http.target attribute is the path, and the
    http.route attribute the route, as they are after the handler returned.
    So when the route is empty before the call and set after it, the
    built-in name is METHOD and the raw path while http.route carries the
    route. *)
Theorem C10_name_before_attributes_after :
  forall (g : otel_Globals) (cfg : OTelConfig) (next : flash_Handler)
         (st st2 : State) (err : error),
    (FilterFunc cfg = None \/ exists f, FilterFunc cfg = Some f /\ f st = false) ->
    next (entryState g cfg st) = (Return err, st2) ->
    let log := snd (OTelWithConfig_run g cfg next st) in
    let c := st_c st in
    let c2 := st_c st2 in
    let builtin := (SpanNameFunc cfg = None
                    \/ exists f, SpanNameFunc cfg = Some f /\ f st = "") in
    startedNames log = [buildSpanName cfg st]
    /\ (builtin ->
        startedNames log =
          [if (Route c =? "")%string
           then Method c +:+ " " +:+ Path c
           else Method c +:+ " " +:+ Route c])
    /\ (exists attrs,
          attributesSet log = [attrs]
          /\ In (attribute_String "http.target" (Path c2)) attrs
          /\ (Route c2 <> "" -> In (attribute_String "http.route" (Route c2)) attrs)
          /\ (builtin -> Route c = "" -> Route c2 <> "" ->
              startedNames log = [Method c +:+ " " +:+ Path c]
              /\ In (attribute_String "http.route" (Route c2)) attrs)).
Proof.
  intros g cfg next st st2 err Hf Hnext log c c2 builtin.
  apply not_filtered in Hf.
  destruct (traced_return_calls g cfg next st st2 err Hf Hnext)
    as (_ & Hname & Hattrs & _ & _).
  fold log in Hname, Hattrs.
  assert (Hbuiltin : builtin ->
            buildSpanName cfg st =
              if (Route c =? "")%string
              then Method c +:+ " " +:+ Path c
              else Method c +:+ " " +:+ Route c).
  { intros Hb. unfold buildSpanName, defaultSpanName. fold c.
    destruct Hb as [Hnone | (f & Hcfg & Hempty)].
    - rewrite Hnone. destruct (Route c =? "")%string; reflexivity.
    - rewrite Hcfg. cbn zeta. rewrite Hempty.
      destruct (Route c =? "")%string; reflexivity. }
  assert (Hroute : Route c2 <> "" ->
            In (attribute_String "http.route" (Route c2))
               (buildAttributes cfg st2 (load (st_w st2) (entryRequest g cfg st))
                  (effectiveStatus (st_c st2))
                  (clock (st_w st2) - clock (st_w (entryState g cfg st))))).
  { intros Hne. rewrite buildAttributes_segments. fold c2.
    destruct (String.eqb_spec (Route c2) "") as [Heq|_]; [contradiction|].
    rewrite !in_app_iff. right. left. cbn. auto. }
  split; [exact Hname|].
  split; [intros Hb; rewrite Hname, (Hbuiltin Hb); reflexivity|].
  eexists. split; [exact Hattrs|].
  split; [rewrite buildAttributes_segments; cbn; auto|].
  split; [exact Hroute|].
  intros Hb Hempty Hset. split; [|exact (Hroute Hset)].
  rewrite Hname, (Hbuiltin Hb), Hempty. reflexivity.
Qed.

(** C10 (amended) at a route that is matched while the handler runs. *)
Lemma C10_witness :
  ((FilterFunc plainConfig = None
    \/ exists f, FilterFunc plainConfig = Some f /\ f sampleState = false)
   /\ okHandler (entryState sdkGlobals plainConfig sampleState)
      = (Return None, snd (okHandler (entryState sdkGlobals plainConfig sampleState))))
  /\ startedNames
       (snd (OTelWithConfig_run sdkGlobals plainConfig okHandler sampleState))
     = ["GET /u/1"].
Proof.
  split.
  - split; [left; reflexivity | reflexivity].
  - exact (proj1 (proj2 (C10_name_before_attributes_after sdkGlobals plainConfig
                           okHandler sampleState _ None
                           (or_introl eq_refl) eq_refl))
             (or_introl eq_refl)).
Defined.

(** ** Further properties of the middleware and the helpers *)

(** The traced path up to the handler call, in terms of what the tracer
    returns. *)
Lemma enter_explicit (g : otel_Globals) (cfg : OTelConfig) (st : State)
    (ctx1 : context_Context) (sp : trace_Span) (w1 : World) :
  let rq := load (st_w st) (Request (st_c st)) in
  let parent := Extract (resolvePropagator g cfg) (reqContext rq) (Header rq) in
  Start (resolveTracer g cfg) parent (buildSpanName cfg st) SpanKindServer (st_w st)
    = (ctx1, sp, w1) ->
  let c := st_c st in
  let r1 := length (requests w1) in
  let old := load w1 (Request c) in
  enter g cfg st =
    (Return (r1, sp),
     {| st_c := {| Method := Method c; Path := Path c; Route := Route c;
                   StatusCode := StatusCode c; Request := r1 |};
        st_w := set_requests
                  (fun h => h ++ [{| reqContext := ctx1; Header := Header old;
                                     RemoteAddr := RemoteAddr old |}]) w1 |},
     [EvExtract (reqContext rq) (Header rq);
      EvStart parent (buildSpanName cfg st) SpanKindServer sp;
      EvSetRequest r1]).
Proof.
  cbn zeta. intros Hstart.
  unfold enter, startSpan, installContext, bind, c_Request, get_State, deref,
    prop_Extract, tracer_Start, r_WithContext, c_SetRequest, ret.
  cbn. rewrite Hstart. reflexivity.
Qed.

(** The state a traced run ends in when the handler returns. *)
Lemma traced_return_state (g : otel_Globals) (cfg : OTelConfig)
    (next : flash_Handler) (st st2 : State) (err : error) :
  skipsTracing cfg st = false ->
  next (entryState g cfg st) = (Return err, st2) ->
  snd (fst (OTelWithConfig_run g cfg next st)) =
    {| st_c := st_c st2;
       st_w := span_do_all (entrySpan g cfg st)
                 (finalOps cfg (entryRequest g cfg st) (entryState g cfg st) st2 err)
                 (st_w st2) |}.
Proof.
  intros Hskip Hnext. unfold finalOps, span_do_all. run_traced Hskip Hnext.
  destruct err as [e|]; reflexivity.
Qed.

(** The state a traced run ends in when the handler panics. *)
Lemma traced_panic_state (g : otel_Globals) (cfg : OTelConfig)
    (next : flash_Handler) (st st2 : State) (v : string) :
  skipsTracing cfg st = false ->
  next (entryState g cfg st) = (Panic v, st2) ->
  snd (fst (OTelWithConfig_run g cfg next st)) =
    {| st_c := st_c st2; st_w := span_do (entrySpan g cfg st) OpEnd (st_w st2) |}.
Proof.
  intros Hskip Hnext. run_traced Hskip Hnext. reflexivity.
Qed.

Lemma alter_journal_nil (id : nat) (l : list SpanRecord) :
  alter (journal_all []) id l = l.
Proof.
  revert id. induction l as [|rec l IHl]; intros [|id]; cbn; try reflexivity.
  - unfold journal_all. rewrite app_nil_r. destruct rec; reflexivity.
  - f_equal. apply IHl.
Qed.

Lemma alter_journal_cons (op : SpanOp) (ops : list SpanOp) (id : nat)
    (l : list SpanRecord) :
  alter (journal_all ops) id (alter (journal op) id l)
  = alter (journal_all (op :: ops)) id l.
Proof.
  revert id. induction l as [|rec l IHl]; intros [|id]; cbn; try reflexivity.
  - unfold journal_all, journal. cbn. rewrite <- app_assoc. reflexivity.
  - f_equal. apply IHl.
Qed.

(** Telling a span a sequence of operations touches its record only. *)
Lemma span_do_all_effect (sp : trace_Span) (ops : list SpanOp) (w : World) :
  requests (span_do_all sp ops w) = requests w
  /\ clock (span_do_all sp ops w) = clock w
  /\ match sp with
     | noopSpan => spans (span_do_all sp ops w) = spans w
     | recordingSpan id =>
         spans (span_do_all sp ops w) = alter (journal_all ops) id (spans w)
     end.
Proof.
  unfold span_do_all. revert w.
  induction ops as [|op ops IH]; intros w; cbn [fold_left].
  - repeat split. destruct sp as [|id]; [reflexivity|].
    symmetry. apply alter_journal_nil.
  - destruct (IH (span_do sp op w)) as (Hr & Hc & Hs).
    rewrite Hr, Hc. destruct sp as [|id]; cbn [span_do] in *.
    + repeat split. exact Hs.
    + repeat split. rewrite Hs. cbn. apply alter_journal_cons.
Qed.

(** The log and the span of the traced path up to the handler call. *)
Lemma entry_explicit (g : otel_Globals) (cfg : OTelConfig) (st : State) :
  let rq := load (st_w st) (Request (st_c st)) in
  let parent := Extract (resolvePropagator g cfg) (reqContext rq) (Header rq) in
  let started := Start (resolveTracer g cfg) parent (buildSpanName cfg st)
                   SpanKindServer (st_w st) in
  let old := load (snd started) (Request (st_c st)) in
  entrySpan g cfg st = snd (fst started)
  /\ entryRequest g cfg st = length (requests (snd started))
  /\ st_w (entryState g cfg st)
     = set_requests
         (fun h => h ++ [{| reqContext := fst (fst started); Header := Header old;
                            RemoteAddr := RemoteAddr old |}]) (snd started)
  /\ entryLog g cfg st =
       [EvExtract (reqContext rq) (Header rq);
        EvStart parent (buildSpanName cfg st) SpanKindServer (entrySpan g cfg st);
        EvSetRequest (entryRequest g cfg st)].
Proof.
  cbn zeta.
  destruct (Start (resolveTracer g cfg) _ _ _ _) as [[ctx1 sp] w1] eqn:Hstart.
  unfold entrySpan, entryRequest, entryState, entryLog.
  rewrite (enter_explicit g cfg st ctx1 sp w1 Hstart). cbn. auto.
Qed.

(** Reading the request that [r.WithContext] has just put on the heap. *)
Lemma load_fresh (w : World) (rq : http_Request) :
  load (set_requests (fun h => h ++ [rq]) w) (length (requests w)) = rq.
Proof.
  unfold load, set_requests. cbn.
  rewrite lookup_app_r by lia. rewrite Nat.sub_diag. reflexivity.
Qed.

Lemma load_older (w : World) (rq : http_Request) (r : nat) :
  (r < length (requests w))%nat ->
  load (set_requests (fun h => h ++ [rq]) w) r = load w r.
Proof.
  intros Hr. unfold load, set_requests. cbn.
  rewrite lookup_app_l by exact Hr. reflexivity.
Qed.

(** X1: in a traced request the middleware first asks the propagator once,
    with the context and the headers of the incoming request, then starts
    the span as a server span whose parent is the context the propagator
    returned, then installs the new request, and only then calls the inner
    handler. *)
Theorem X1_span_parent_is_extracted :
  forall (g : otel_Globals) (cfg : OTelConfig) (next : flash_Handler) (st : State),
    (FilterFunc cfg = None \/ exists f, FilterFunc cfg = Some f /\ f st = false) ->
    let rq := load (st_w st) (Request (st_c st)) in
    let parent := Extract (resolvePropagator g cfg) (reqContext rq) (Header rq) in
    let log := snd (OTelWithConfig_run g cfg next st) in
    (exists rest,
       log = [EvExtract (reqContext rq) (Header rq);
              EvStart parent (buildSpanName cfg st) SpanKindServer
                (entrySpan g cfg st);
              EvSetRequest (entryRequest g cfg st);
              EvCallNext (st_c (entryState g cfg st))] ++ rest)
    /\ count is_Extract log = 1%nat.
Proof.
  intros g cfg next st Hf rq parent log. apply not_filtered in Hf.
  destruct (entry_explicit g cfg st) as (_ & _ & _ & Hlog).
  cbn zeta in Hlog. fold rq parent in Hlog. subst log.
  destruct (next (entryState g cfg st)) as [[err|v] st2] eqn:Hnext.
  - destruct (traced_return_run g cfg next st st2 err Hf Hnext) as (st3 & _ & ->).
    cbn [snd]. rewrite Hlog. split; [eexists; cbn; reflexivity|].
    unfold finalCalls. destruct err; reflexivity.
  - destruct (traced_panic_run g cfg next st st2 v Hf Hnext) as (st3 & _ & ->).
    cbn [snd]. rewrite Hlog. split; [eexists; cbn; reflexivity | reflexivity].
Qed.

(** X1 at a request with a traceparent header. *)
Lemma X1_witness :
  (FilterFunc plainConfig = None
   \/ exists f, FilterFunc plainConfig = Some f /\ f sampleState = false)
  /\ count is_Extract
       (snd (OTelWithConfig_run sdkGlobals plainConfig okHandler sampleState))
     = 1%nat.
Proof.
  split.
  - left. reflexivity.
  - exact (proj2 (X1_span_parent_is_extracted sdkGlobals plainConfig okHandler
                    sampleState (or_introl eq_refl))).
Defined.

(** X2: when the tracer puts the span it starts into the context it
    returns, the inner handler of a traced request runs on a request whose
    context carries that span: [Span], called by the handler on the state it
    is handed, is the span the middleware started. *)
Theorem X2_handler_sees_the_started_span :
  forall (g : otel_Globals) (cfg : OTelConfig) (st : State),
    tracerInstallsSpan (resolveTracer g cfg) ->
    let st1 := entryState g cfg st in
    Request (st_c st1) = entryRequest g cfg st
    /\ ctxSpan (reqContext (load (st_w st1) (Request (st_c st1))))
       = Some (entrySpan g cfg st)
    /\ Span st1 = entrySpan g cfg st.
Proof.
  intros g cfg st Htracer st1.
  destruct (entry_explicit g cfg st) as (Hsp & Hr & Hw & _). cbn zeta in *.
  assert (Hreq : Request (st_c st1) = entryRequest g cfg st).
  { subst st1. rewrite entryState_ctx. reflexivity. }
  split; [exact Hreq|].
  assert (Hctx : ctxSpan (reqContext (load (st_w st1) (Request (st_c st1))))
                 = Some (entrySpan g cfg st)).
  { rewrite Hreq. subst st1. rewrite Hw, Hr, load_fresh. cbn [reqContext].
    rewrite Hsp. apply Htracer. }
  split; [exact Hctx|].
  unfold Span, trace_SpanFromContext. rewrite Hctx. reflexivity.
Qed.

(** X2 with the recording tracer. *)
Lemma X2_witness :
  tracerInstallsSpan (resolveTracer sdkGlobals plainConfig)
  /\ Span (entryState sdkGlobals plainConfig sampleState) = recordingSpan 0.
Proof.
  assert (Htracer : tracerInstallsSpan (resolveTracer sdkGlobals plainConfig)).
  { intros ctx name kind w. reflexivity. }
  split.
  - exact Htracer.
  - exact (proj2 (proj2 (X2_handler_sees_the_started_span sdkGlobals plainConfig
                           sampleState Htracer))).
Defined.

(** X3: the middleware does not change the request object it was given; it
    installs a copy.  With a tracer that leaves the request objects alone,
    the request installed for the handler is at a fresh address, has the
    headers and the remote address of the incoming request and the context
    the tracer returned; every request object that existed before is as it
    was; and method, path, route and status of the context are as they
    were. *)
Theorem X3_request_is_copied_not_changed :
  forall (g : otel_Globals) (cfg : OTelConfig) (st : State),
    tracerKeepsRequests (resolveTracer g cfg) ->
    let st1 := entryState g cfg st in
    let r0 := Request (st_c st) in
    let r1 := Request (st_c st1) in
    r1 = length (requests (st_w st))
    /\ length (requests (st_w st1)) = S (length (requests (st_w st)))
    /\ Header (load (st_w st1) r1) = Header (load (st_w st) r0)
    /\ RemoteAddr (load (st_w st1) r1) = RemoteAddr (load (st_w st) r0)
    /\ (forall r, (r < length (requests (st_w st)))%nat ->
                  load (st_w st1) r = load (st_w st) r)
    /\ (Method (st_c st1), Path (st_c st1), Route (st_c st1), StatusCode (st_c st1))
       = (Method (st_c st), Path (st_c st), Route (st_c st), StatusCode (st_c st)).
Proof.
  intros g cfg st Hkeep st1 r0 r1.
  destruct (entry_explicit g cfg st) as (_ & Hr & Hw & _). cbn zeta in *.
  set (started := Start (resolveTracer g cfg) _ _ _ _) in *.
  assert (Hreqs : requests (snd started) = requests (st_w st)) by apply Hkeep.
  assert (Hload : forall r, load (snd started) r = load (st_w st) r).
  { intros r. unfold load. rewrite Hreqs. reflexivity. }
  assert (Hr1 : r1 = length (requests (st_w st))).
  { subst r1 st1. rewrite entryState_ctx. cbn. rewrite Hr, Hreqs. reflexivity. }
  split; [exact Hr1|].
  subst st1. rewrite Hw.
  split; [cbn; rewrite length_app, Hreqs; cbn; lia|].
  rewrite Hr1, <- Hreqs, load_fresh. cbn [Header RemoteAddr]. rewrite Hload.
  split; [reflexivity|]. split; [reflexivity|].
  split; [intros r Hlt; rewrite load_older by exact Hlt; apply Hload|].
  rewrite entryState_ctx. reflexivity.
Qed.

(** X3 with the recording tracer. *)
Lemma X3_witness :
  tracerKeepsRequests (resolveTracer sdkGlobals plainConfig)
  /\ RemoteAddr (load (st_w (entryState sdkGlobals plainConfig sampleState))
                   (Request (st_c (entryState sdkGlobals plainConfig sampleState))))
     = "10.0.0.7:5000".
Proof.
  assert (Hkeep : tracerKeepsRequests (resolveTracer sdkGlobals plainConfig)).
  { intros ctx name kind w. reflexivity. }
  split.
  - exact Hkeep.
  - exact (proj1 (proj2 (proj2 (proj2
             (X3_request_is_copied_not_changed sdkGlobals plainConfig sampleState
                Hkeep))))).
Defined.

(** X4: when the handler of a traced request returns, what the middleware
    does afterwards touches the span it started and nothing else.  The
    context object, the request objects and the clock end as the handler
    left them; a no-op span leaves the span store as the handler left it; a
    recording span gets SetAttributes, SetStatus, RecordError for a non-nil
    error, and End appended to its journal, in this order, after whatever
    the handler recorded, and every other span record is as the handler left
    it. *)
Theorem X4_finalization_touches_only_its_span :
  forall (g : otel_Globals) (cfg : OTelConfig) (next : flash_Handler)
         (st st2 : State) (err : error),
    (FilterFunc cfg = None \/ exists f, FilterFunc cfg = Some f /\ f st = false) ->
    next (entryState g cfg st) = (Return err, st2) ->
    let st3 := snd (OTelWithConfig g cfg next st) in
    let ops := finalOps cfg (entryRequest g cfg st) (entryState g cfg st) st2 err in
    st_c st3 = st_c st2
    /\ requests (st_w st3) = requests (st_w st2)
    /\ clock (st_w st3) = clock (st_w st2)
    /\ (exists attrs code desc,
          ops = [OpSetAttributes attrs; OpSetStatus code desc]
                ++ match err with Some e => [OpRecordError e] | None => [] end
                ++ [OpEnd])
    /\ match entrySpan g cfg st with
       | noopSpan => spans (st_w st3) = spans (st_w st2)
       | recordingSpan id =>
           spans (st_w st3) !! id = journal_all ops <$> (spans (st_w st2) !! id)
           /\ forall j, j <> id -> spans (st_w st3) !! j = spans (st_w st2) !! j
       end.
Proof.
  intros g cfg next st st2 err Hf Hnext st3 ops. apply not_filtered in Hf.
  assert (Hst3 : st3 = {| st_c := st_c st2;
                          st_w := span_do_all (entrySpan g cfg st) ops (st_w st2) |}).
  { subst st3 ops. unfold OTelWithConfig.
    apply (traced_return_state g cfg next st st2 err Hf Hnext). }
  rewrite Hst3. cbn [st_c st_w].
  destruct (span_do_all_effect (entrySpan g cfg st) ops (st_w st2)) as (Hr & Hc & Hs).
  split; [reflexivity|]. split; [exact Hr|]. split; [exact Hc|].
  split; [subst ops; unfold finalOps; eauto|].
  destruct (entrySpan g cfg st) as [|id]; [exact Hs|].
  rewrite Hs. split.
  - apply list_lookup_alter_eq.
  - intros j Hj. apply list_lookup_alter_ne. congruence.
Qed.

(** X4 at a handler that returns an error. *)
Lemma X4_witness :
  ((FilterFunc plainConfig = None
    \/ exists f, FilterFunc plainConfig = Some f /\ f sampleState = false)
   /\ boomHandler (entryState sdkGlobals plainConfig sampleState)
      = (Return (Some "boom"),
         snd (boomHandler (entryState sdkGlobals plainConfig sampleState))))
  /\ clock (st_w (snd (OTelWithConfig sdkGlobals plainConfig boomHandler sampleState)))
     = 1001.
Proof.
  split.
  - split; [left; reflexivity | reflexivity].
  - exact (proj1 (proj2 (proj2 (X4_finalization_touches_only_its_span sdkGlobals
             plainConfig boomHandler sampleState _ (Some "boom")
             (or_introl eq_refl) eq_refl)))).
Defined.

(** X5: when the handler of a traced request panics, the middleware passes
    the panic on as it is and sets nothing on the span: no attributes, no
    status, no error.  It only ends the span: the final state is the state
    the handler left with End told to the span. *)
Theorem X5_panic_is_passed_on :
  forall (g : otel_Globals) (cfg : OTelConfig) (next : flash_Handler)
         (st st2 : State) (v : string),
    (FilterFunc cfg = None \/ exists f, FilterFunc cfg = Some f /\ f st = false) ->
    next (entryState g cfg st) = (Panic v, st2) ->
    let log := snd (OTelWithConfig_run g cfg next st) in
    OTelWithConfig g cfg next st
      = (Panic v,
         {| st_c := st_c st2;
            st_w := span_do (entrySpan g cfg st) OpEnd (st_w st2) |})
    /\ attributesSet log = []
    /\ statusesSet log = []
    /\ errorsRecorded log = [].
Proof.
  intros g cfg next st st2 v Hf Hnext log. apply not_filtered in Hf.
  pose proof (traced_panic_state g cfg next st st2 v Hf Hnext) as Hstate.
  destruct (traced_panic_run g cfg next st st2 v Hf Hnext) as (st3 & _ & Hrun).
  subst log. unfold OTelWithConfig. rewrite Hrun in *. cbn [fst snd] in *.
  split; [rewrite Hstate; reflexivity|].
  destruct (entry_explicit g cfg st) as (_ & _ & _ & ->).
  repeat split.
Qed.

(** X5 at a handler that panics. *)
Lemma X5_witness :
  ((FilterFunc plainConfig = None
    \/ exists f, FilterFunc plainConfig = Some f /\ f sampleState = false)
   /\ panicHandler (entryState sdkGlobals plainConfig sampleState)
      = (Panic "nil map",
         snd (panicHandler (entryState sdkGlobals plainConfig sampleState))))
  /\ fst (OTelWithConfig sdkGlobals plainConfig panicHandler sampleState)
     = Panic "nil map".
Proof.
  split.
  - split; [left; reflexivity | reflexivity].
  - exact (f_equal fst (proj1 (X5_panic_is_passed_on sdkGlobals plainConfig
             panicHandler sampleState _ "nil map" (or_introl eq_refl) eq_refl))).
Defined.

(** With a tracer that installs its span, the current span of the state
    handed to the inner handler is the span that was started. *)
Lemma entry_Span (g : otel_Globals) (cfg : OTelConfig) (st : State) :
  tracerInstallsSpan (resolveTracer g cfg) ->
  ctxSpan (reqContext (load (st_w (entryState g cfg st))
                         (Request (st_c (entryState g cfg st)))))
  = Some (entrySpan g cfg st)
  /\ Span (entryState g cfg st) = entrySpan g cfg st.
Proof.
  intros Htracer.
  destruct (entry_explicit g cfg st) as (Hsp & Hr & Hw & _). cbn zeta in *.
  assert (Hctx : ctxSpan (reqContext (load (st_w (entryState g cfg st))
                                        (Request (st_c (entryState g cfg st)))))
                 = Some (entrySpan g cfg st)).
  { rewrite entryState_ctx. cbn [Request].
    rewrite Hw, Hr, load_fresh. cbn [reqContext]. rewrite Hsp. apply Htracer. }
  split; [exact Hctx|].
  unfold Span, trace_SpanFromContext. rewrite Hctx. reflexivity.
Qed.


(** The outcome of the middleware is the outcome of the inner handler, on
    either path and for a return as for a panic. *)
Lemma outcome_is_handlers (g : otel_Globals) (cfg : OTelConfig)
    (next : flash_Handler) (st : State) :
  fst (OTelWithConfig g cfg next st)
  = fst (next (if skipsTracing cfg st then st else entryState g cfg st)).
Proof.
  unfold OTelWithConfig.
  destruct (skipsTracing cfg st) eqn:Hskip.
  - rewrite (filtered_run g cfg next st Hskip). reflexivity.
  - destruct (next (entryState g cfg st)) as [[err|v] st2] eqn:Hnext.
    + destruct (traced_return_run g cfg next st st2 err Hskip Hnext)
        as (st3 & _ & ->). reflexivity.
    + destruct (traced_panic_run g cfg next st st2 v Hskip Hnext)
        as (st3 & _ & ->). reflexivity.
Qed.

Lemma journal_all_app (ops1 ops2 : list SpanOp) (rec : option SpanRecord) :
  journal_all ops2 <$> (journal_all ops1 <$> rec) = journal_all (ops1 ++ ops2) <$> rec.
Proof.
  destruct rec as [rec|]; [|reflexivity]. cbn. unfold journal_all. cbn.
  rewrite <- app_assoc. reflexivity.
Qed.

(** The two helpers called in a row on a state whose current span is a
    recording one. *)
Lemma helpers_on_recording_span (st : State) (id : nat)
    (attrs : list attribute_KeyValue) (name : string)
    (evattrs : list attribute_KeyValue) :
  ctxSpan (reqContext (load (st_w st) (Request (st_c st)))) = Some (recordingSpan id) ->
  let st1 := snd (AddAttributes attrs st) in
  let st2 := snd (AddEvent name evattrs st1) in
  st2 = {| st_c := st_c st;
           st_w := span_do_all (recordingSpan id)
                     [OpSetAttributes attrs; OpAddEvent name evattrs] (st_w st) |}
  /\ st1 = {| st_c := st_c st;
              st_w := span_do (recordingSpan id) (OpSetAttributes attrs) (st_w st) |}.
Proof.
  intros Hctx st1 st2.
  assert (Hspan : Span st = recordingSpan id).
  { unfold Span, trace_SpanFromContext. rewrite Hctx. reflexivity. }
  assert (Hst1 : st1 = {| st_c := st_c st;
                          st_w := span_do (recordingSpan id) (OpSetAttributes attrs)
                                    (st_w st) |}).
  { subst st1. unfold AddAttributes. rewrite Hspan. reflexivity. }
  split; [|exact Hst1].
  assert (Hspan1 : Span st1 = recordingSpan id).
  { rewrite Hst1. unfold Span, trace_SpanFromContext, load. cbn.
    unfold load in Hctx. rewrite Hctx. reflexivity. }
  subst st2. unfold AddEvent. rewrite Hspan1. rewrite Hst1. reflexivity.
Qed.

(** X6: on a request whose context carries a recording span, the helpers
    return normally and tell that span and nothing else: [AddAttributes]
    appends one SetAttributes to its journal, [AddEvent] after it appends
    one AddEvent behind, the current span stays the same, and the context
    object, the request objects, the clock and every other span record are
    untouched. *)
Theorem X6_helpers_on_active_span :
  forall (st : State) (id : nat) (attrs : list attribute_KeyValue) (name : string)
         (evattrs : list attribute_KeyValue),
    ctxSpan (reqContext (load (st_w st) (Request (st_c st))))
      = Some (recordingSpan id) ->
    let st1 := snd (AddAttributes attrs st) in
    let st2 := snd (AddEvent name evattrs st1) in
    fst (AddAttributes attrs st) = Return tt
    /\ fst (AddEvent name evattrs st1) = Return tt
    /\ Span st2 = recordingSpan id
    /\ st_c st2 = st_c st
    /\ requests (st_w st2) = requests (st_w st)
    /\ clock (st_w st2) = clock (st_w st)
    /\ spans (st_w st1) !! id
       = journal_all [OpSetAttributes attrs] <$> (spans (st_w st) !! id)
    /\ spans (st_w st2) !! id
       = journal_all [OpSetAttributes attrs; OpAddEvent name evattrs]
           <$> (spans (st_w st) !! id)
    /\ forall j, j <> id -> spans (st_w st2) !! j = spans (st_w st) !! j.
Proof.
  intros st id attrs name evattrs Hctx st1 st2.
  destruct (helpers_on_recording_span st id attrs name evattrs Hctx) as (Hst2 & Hst1).
  fold st1 in Hst1. fold st1 st2 in Hst2.
  destruct (span_do_all_effect (recordingSpan id)
              [OpSetAttributes attrs; OpAddEvent name evattrs] (st_w st))
    as (Hr & Hc & Hs).
  destruct (span_do_all_effect (recordingSpan id) [OpSetAttributes attrs] (st_w st))
    as (_ & _ & Hs1).
  split; [reflexivity|]. split; [reflexivity|].
  split.
  { rewrite Hst2. unfold Span, trace_SpanFromContext, load. cbn [st_c st_w].
    rewrite Hr. unfold load in Hctx. rewrite Hctx. reflexivity. }
  rewrite Hst2, Hst1. cbn [st_c st_w].
  split; [reflexivity|]. split; [exact Hr|]. split; [exact Hc|].
  split; [change (span_do (recordingSpan id) (OpSetAttributes attrs) (st_w st))
            with (span_do_all (recordingSpan id) [OpSetAttributes attrs] (st_w st));
          rewrite Hs1; apply list_lookup_alter_eq|].
  rewrite Hs.
  split; [apply list_lookup_alter_eq|].
  intros j Hj. apply list_lookup_alter_ne. congruence.
Qed.

(** X6 inside a traced request. *)
Lemma X6_witness :
  ctxSpan (reqContext (load (st_w tracedSampleState) (Request (st_c tracedSampleState))))
    = Some (recordingSpan 0)
  /\ Span (snd (AddEvent "evt" []
                  (snd (AddAttributes [attribute_String "k" "v"] tracedSampleState))))
     = recordingSpan 0.
Proof.
  split; [reflexivity|].
  exact (proj1 (proj2 (proj2 (X6_helpers_on_active_span tracedSampleState 0
                                [attribute_String "k" "v"] "evt" [] eq_refl)))).
Defined.

(** X7: attributes and events that the handler sets through the helpers
    land on the span of the request, before the attributes of the
    middleware.  With a tracer that installs the recording span it starts,
    and a handler that calls [AddAttributes] and [AddEvent] and returns nil,
    the journal of the span ends up with the handler's SetAttributes and
    AddEvent, then the middleware's SetAttributes, SetStatus and End. *)
Theorem X7_dynamic_attributes_come_first :
  forall (g : otel_Globals) (cfg : OTelConfig) (st : State) (id : nat)
         (attrs : list attribute_KeyValue) (name : string)
         (evattrs : list attribute_KeyValue),
    (FilterFunc cfg = None \/ exists f, FilterFunc cfg = Some f /\ f st = false) ->
    tracerInstallsSpan (resolveTracer g cfg) ->
    entrySpan g cfg st = recordingSpan id ->
    let st1 := entryState g cfg st in
    let next := attrsHandler attrs name evattrs in
    let st3 := snd (OTelWithConfig g cfg next st) in
    fst (OTelWithConfig g cfg next st) = Return None
    /\ exists built code desc,
         spans (st_w st3) !! id
         = journal_all [OpSetAttributes attrs; OpAddEvent name evattrs;
                        OpSetAttributes built; OpSetStatus code desc; OpEnd]
             <$> (spans (st_w st1) !! id)
         /\ In (attribute_String "http.method" (Method (st_c st))) built
         /\ (code, desc) = spanStatus cfg (effectiveStatus (st_c st)) None.
Proof.
  intros g cfg st id attrs name evattrs Hf Htracer Hsp st1 next st3.
  apply not_filtered in Hf.
  destruct (entry_Span g cfg st Htracer) as (Hctx & _).
  fold st1 in Hctx. rewrite Hsp in Hctx.
  destruct (helpers_on_recording_span st1 id attrs name evattrs Hctx) as (Hst2 & _).
  cbn zeta in Hst2.
  set (st2 := snd (AddEvent name evattrs (snd (AddAttributes attrs st1)))) in *.
  assert (Hnext : next st1 = (Return None, st2)) by reflexivity.
  assert (Hc2 : st_c st2 = st_c st1) by (rewrite Hst2; reflexivity).
  split; [rewrite outcome_is_handlers, Hf; fold st1; rewrite Hnext; reflexivity|].
  pose proof (traced_return_state g cfg next st st2 None Hf Hnext) as Hst3.
  fold st1 in Hst3. rewrite Hsp in Hst3.
  unfold finalOps in Hst3. cbn [app] in Hst3.
  eexists _, _, _. split; [|split].
  - subst st3. unfold OTelWithConfig. rewrite Hst3. cbn [st_w].
    destruct (span_do_all_effect (recordingSpan id)
                [OpSetAttributes
                   (buildAttributes cfg st2 (load (st_w st2) (entryRequest g cfg st))
                      (effectiveStatus (st_c st2))
                      (clock (st_w st2) - clock (st_w st1)));
                 OpSetStatus (fst (spanStatus cfg (effectiveStatus (st_c st2)) None))
                   (snd (spanStatus cfg (effectiveStatus (st_c st2)) None));
                 OpEnd] (st_w st2)) as (_ & _ & ->).
    rewrite list_lookup_alter_eq.
    assert (Hspans2 : spans (st_w st2) !! id
                      = journal_all [OpSetAttributes attrs; OpAddEvent name evattrs]
                          <$> (spans (st_w st1) !! id)).
    { rewrite Hst2. cbn [st_w].
      destruct (span_do_all_effect (recordingSpan id)
                  [OpSetAttributes attrs; OpAddEvent name evattrs] (st_w st1))
        as (_ & _ & ->).
      apply list_lookup_alter_eq. }
    rewrite Hspans2, journal_all_app. reflexivity.
  - rewrite buildAttributes_segments. cbn zeta. rewrite Hc2.
    subst st1. rewrite entryState_ctx. cbn. auto.
  - assert (Heff : effectiveStatus (st_c st2) = effectiveStatus (st_c st)).
    { rewrite Hc2. subst st1. rewrite entryState_ctx. reflexivity. }
    rewrite Heff. symmetry. apply surjective_pairing.
Qed.

(** X7 with the recording tracer. *)
Lemma X7_witness :
  ((FilterFunc sdkConfig = None
    \/ exists f, FilterFunc sdkConfig = Some f /\ f sampleState = false)
   /\ tracerInstallsSpan (resolveTracer noopGlobals sdkConfig)
   /\ entrySpan noopGlobals sdkConfig sampleState = recordingSpan 0)
  /\ fst (OTelWithConfig noopGlobals sdkConfig
            (attrsHandler [attribute_String "user.id" "u-42"] "custom.event"
               [attribute_String "note" "from handler"]) sampleState)
     = Return None.
Proof.
  assert (Htracer : tracerInstallsSpan (resolveTracer noopGlobals sdkConfig)).
  { intros ctx name kind w. reflexivity. }
  split.
  - split; [left; reflexivity | split; [exact Htracer | reflexivity]].
  - exact (proj1 (X7_dynamic_attributes_come_first noopGlobals sdkConfig sampleState
                    0 [attribute_String "user.id" "u-42"] "custom.event"
                    [attribute_String "note" "from handler"]
                    (or_introl eq_refl) Htracer eq_refl)).
Defined.



(** X9: [OTel serviceName extraAttrs] is [OTelWithConfig] with only the
    service name and the extra attributes set, so it traces every request:
    the span is started under the default name; when the handler returns,
    the attributes are the base ones, http.route for a non-empty route,
    service.name for a non-empty service name, the extra attributes and
    http.status_code, with no duration; the status is the default mapping's;
    and the handler's error is returned. *)
Theorem X9_OTel_traces_every_request :
  forall (g : otel_Globals) (serviceName : string)
         (extraAttrs : list attribute_KeyValue) (next : flash_Handler)
         (st st2 : State) (err : error),
    let cfg := {| Tracer := None; Propagator := None; FilterFunc := None;
                  SpanNameFunc := None; AttributesFunc := None; StatusFunc := None;
                  RecordDuration := false; ServiceName := serviceName;
                  ExtraAttributes := extraAttrs |} in
    next (entryState g cfg st) = (Return err, st2) ->
    let log := snd (OTelWithConfig_run g cfg next st) in
    let c2 := st_c st2 in
    fst (OTel g serviceName extraAttrs next st) = Return err
    /\ startedNames log = [defaultSpanName (st_c st)]
    /\ attributesSet log =
         [[attribute_String "http.method" (Method c2);
           attribute_String "http.target" (Path c2);
           attribute_String "net.peer.addr"
             (RemoteAddr (load (st_w st2) (entryRequest g cfg st)))]
          ++ (if (Route c2 =? "")%string then []
              else [attribute_String "http.route" (Route c2)])
          ++ (if (serviceName =? "")%string then []
              else [attribute_String "service.name" serviceName])
          ++ extraAttrs
          ++ [attribute_Int "http.status_code" (effectiveStatus c2)]]
    /\ statusesSet log = [defaultStatus (effectiveStatus c2) err].
Proof.
  intros g serviceName extraAttrs next st st2 err cfg Hnext log c2.
  assert (Hskip : skipsTracing cfg st = false) by reflexivity.
  destruct (traced_return_calls g cfg next st st2 err Hskip Hnext)
    as (Hout & Hname & Hattrs & Hstatus & _).
  fold log in Hname, Hattrs, Hstatus.
  split; [exact Hout|]. split; [exact Hname|].
  split; [|exact Hstatus].
  rewrite Hattrs, buildAttributes_segments. cbn zeta.
  cbn [AttributesFunc ExtraAttributes RecordDuration ServiceName cfg].
  rewrite app_nil_r. reflexivity.
Qed.

(** X9 at a handler that returns an error. *)
Lemma X9_witness :
  boomHandler (entryState sdkGlobals plainConfig sampleState)
  = (Return (Some "boom"),
     snd (boomHandler (entryState sdkGlobals plainConfig sampleState)))
  /\ fst (OTel sdkGlobals "svc" [] boomHandler sampleState) = Return (Some "boom").
Proof.
  split; [reflexivity|].
  exact (proj1 (X9_OTel_traces_every_request sdkGlobals "svc" [] boomHandler
                  sampleState _ (Some "boom") eq_refl)).
Defined.

(** X10: the global registry matters only for what the configuration
    leaves out, and the global tracer is asked under the name GoFlash.  Two
    registries that agree on that tracer and on the propagator give the same
    run; with a tracer and a propagator configured, every registry gives the
    same run. *)
Theorem X10_globals_are_a_fallback :
  forall (g g' : otel_Globals) (cfg : OTelConfig) (next : flash_Handler) (st : State),
    ((Tracer cfg = None -> otel_Tracer g "GoFlash" = otel_Tracer g' "GoFlash")
     /\ (Propagator cfg = None ->
         otel_GetTextMapPropagator g = otel_GetTextMapPropagator g')) ->
    OTelWithConfig_run g cfg next st = OTelWithConfig_run g' cfg next st.
Proof.
  intros g g' cfg next st [Ht Hp].
  assert (Htracer : resolveTracer g cfg = resolveTracer g' cfg).
  { unfold resolveTracer. destruct (Tracer cfg); [reflexivity | apply Ht; reflexivity]. }
  assert (Hprop : resolvePropagator g cfg = resolvePropagator g' cfg).
  { unfold resolvePropagator.
    destruct (Propagator cfg); [reflexivity | apply Hp; reflexivity]. }
  unfold OTelWithConfig_run. cbn zeta. rewrite Htracer, Hprop. reflexivity.
Qed.

(** X10 with a tracer and a propagator configured: the registry plays no
    part. *)
Lemma X10_witness :
  ((Tracer sdkConfig = None ->
    otel_Tracer sdkGlobals "GoFlash" = otel_Tracer noopGlobals "GoFlash")
   /\ (Propagator sdkConfig = None ->
       otel_GetTextMapPropagator sdkGlobals = otel_GetTextMapPropagator noopGlobals))
  /\ OTelWithConfig_run sdkGlobals sdkConfig okHandler sampleState
     = OTelWithConfig_run noopGlobals sdkConfig okHandler sampleState.
Proof.
  assert (H : (Tracer sdkConfig = None ->
               otel_Tracer sdkGlobals "GoFlash" = otel_Tracer noopGlobals "GoFlash")
              /\ (Propagator sdkConfig = None ->
                  otel_GetTextMapPropagator sdkGlobals
                  = otel_GetTextMapPropagator noopGlobals)).
  { split; intros Hnone; discriminate Hnone. }
  split; [exact H|].
  exact (X10_globals_are_a_fallback sdkGlobals noopGlobals sdkConfig okHandler
           sampleState H).
Defined.

(** X11: a status the handler wrote is used as it is: http.status_code
    carries it and the status mapping is applied to it.  Under the default
    mapping a handler that returns nil gets Ok for every written code below
    500, 4xx codes included, and Error with the reason phrase from 500 on. *)
Theorem X11_written_status_is_used :
  forall (g : otel_Globals) (cfg : OTelConfig) (next : flash_Handler)
         (st st2 : State) (err : error),
    (FilterFunc cfg = None \/ exists f, FilterFunc cfg = Some f /\ f st = false) ->
    next (entryState g cfg st) = (Return err, st2) ->
    StatusCode (st_c st2) <> 0 ->
    let log := snd (OTelWithConfig_run g cfg next st) in
    let code := StatusCode (st_c st2) in
    (exists attrs,
       attributesSet log = [attrs] /\ In (attribute_Int "http.status_code" code) attrs)
    /\ statusesSet log =
         [match StatusFunc cfg with
          | Some f => f code err
          | None => defaultStatus code err
          end]
    /\ (StatusFunc cfg = None -> err = None ->
        statusesSet log =
          [if code <? 500 then (codes_Ok, "")
           else (codes_Error, http_StatusText code)]).
Proof.
  intros g cfg next st st2 err Hf Hnext Hcode log code.
  apply not_filtered in Hf.
  destruct (traced_return_calls g cfg next st st2 err Hf Hnext)
    as (_ & _ & Hattrs & Hstatus & _).
  fold log in Hattrs, Hstatus.
  assert (Heff : effectiveStatus (st_c st2) = code).
  { unfold effectiveStatus. fold code.
    destruct (Z.eqb_spec code 0); [contradiction | reflexivity]. }
  rewrite Heff in Hattrs, Hstatus.
  split; [|split].
  - eexists. split; [exact Hattrs|].
    rewrite buildAttributes_segments. rewrite !in_app_iff.
    do 5 right. left. cbn. auto.
  - rewrite Hstatus. unfold spanStatus. destruct (StatusFunc cfg); reflexivity.
  - intros Hnone ->. rewrite Hstatus. unfold spanStatus, defaultStatus.
    rewrite Hnone. cbn [is_nil negb orb].
    destruct (Z.leb_spec 500 code), (Z.ltb_spec code 500); try lia; reflexivity.
Qed.

(** X11 at a handler that writes 404 and returns nil. *)
Lemma X11_witness :
  ((FilterFunc plainConfig = None
    \/ exists f, FilterFunc plainConfig = Some f /\ f sampleState = false)
   /\ notFoundHandler (entryState sdkGlobals plainConfig sampleState)
      = (Return None,
         snd (notFoundHandler (entryState sdkGlobals plainConfig sampleState)))
   /\ StatusCode
        (st_c (snd (notFoundHandler (entryState sdkGlobals plainConfig sampleState))))
      <> 0)
  /\ statusesSet
       (snd (OTelWithConfig_run sdkGlobals plainConfig notFoundHandler sampleState))
     = [(codes_Ok, "")].
Proof.
  assert (Hcode : StatusCode
                    (st_c (snd (notFoundHandler
                                  (entryState sdkGlobals plainConfig sampleState))))
                  <> 0) by discriminate.
  split.
  - split; [left; reflexivity | split; [reflexivity | exact Hcode]].
  - exact (proj2 (proj2 (X11_written_status_is_used sdkGlobals plainConfig
                           notFoundHandler sampleState _ None
                           (or_introl eq_refl) eq_refl Hcode)) eq_refl eq_refl).
Defined.

(** X12: the recorded duration is the clock reading after the handler
    returned minus the reading just before it was called, over one
    millisecond; it is the last attribute, and it is not negative when the
    clock did not run backwards while the handler ran. *)
Theorem X12_duration_is_elapsed_time :
  forall (g : otel_Globals) (cfg : OTelConfig) (next : flash_Handler)
         (st st2 : State) (err : error),
    (FilterFunc cfg = None \/ exists f, FilterFunc cfg = Some f /\ f st = false) ->
    next (entryState g cfg st) = (Return err, st2) ->
    RecordDuration cfg = true ->
    clock (st_w (entryState g cfg st)) <= clock (st_w st2) ->
    exists pre elapsed,
      attributesSet (snd (OTelWithConfig_run g cfg next st))
      = [pre ++ [attribute_Float64 "http.server.duration_ms" elapsed time_Millisecond]]
      /\ elapsed = clock (st_w st2) - clock (st_w (entryState g cfg st))
      /\ 0 <= elapsed
      /\ 0 < time_Millisecond.
Proof.
  intros g cfg next st st2 err Hf Hnext Hrec Hclock.
  apply not_filtered in Hf.
  destruct (traced_return_calls g cfg next st st2 err Hf Hnext)
    as (_ & _ & Hattrs & _ & _).
  rewrite Hattrs, buildAttributes_segments. cbn zeta. rewrite Hrec.
  eexists _, _. split; [rewrite !app_assoc; reflexivity|].
  split; [reflexivity|]. split; [lia | reflexivity].
Qed.

(** X12 at a handler that takes 2.5 ms. *)
Lemma X12_witness :
  ((FilterFunc optionsConfig = None
    \/ exists f, FilterFunc optionsConfig = Some f /\ f sampleState = false)
   /\ okHandler (entryState sdkGlobals optionsConfig sampleState)
      = (Return None, snd (okHandler (entryState sdkGlobals optionsConfig sampleState)))
   /\ RecordDuration optionsConfig = true
   /\ clock (st_w (entryState sdkGlobals optionsConfig sampleState))
      <= clock (st_w (snd (okHandler (entryState sdkGlobals optionsConfig sampleState)))))
  /\ exists pre elapsed,
       attributesSet
         (snd (OTelWithConfig_run sdkGlobals optionsConfig okHandler sampleState))
       = [pre ++ [attribute_Float64 "http.server.duration_ms" elapsed time_Millisecond]]
       /\ elapsed = 2500000.
Proof.
  assert (Hclock : clock (st_w (entryState sdkGlobals optionsConfig sampleState))
                   <= clock (st_w (snd (okHandler
                                (entryState sdkGlobals optionsConfig sampleState))))).
  { vm_compute. discriminate. }
  split.
  - split; [right; eexists; split; reflexivity|].
    split; [reflexivity|]. split; [reflexivity | exact Hclock].
  - destruct (X12_duration_is_elapsed_time sdkGlobals optionsConfig okHandler
                sampleState _ None
                (or_intror (ex_intro _ _ (conj eq_refl eq_refl))) eq_refl eq_refl
                Hclock) as (pre & elapsed & Hset & Hel & _).
    exists pre, elapsed. split; [exact Hset|]. rewrite Hel. reflexivity.
Defined.

(** No reason phrase of [http.StatusText] is the description the example
    gives to client errors. *)
Lemma StatusText_not_client_error (code : Z) : http_StatusText code <> "client error".
Proof.
  unfold http_StatusText.
  destruct code as [|p|p]; try discriminate.
  do 10 (try (destruct p as [p|p|]; try discriminate)).
Qed.

(** X13: the name function of the example is the built-in default rule, so
    configuring it changes no span name: the span is started under the
    default name of the incoming request. *)
Theorem X13_example_name_is_the_default :
  forall (g : otel_Globals) (cfg : OTelConfig) (next : flash_Handler) (st : State),
    SpanNameFunc cfg = Some exampleSpanNameFunc ->
    (FilterFunc cfg = None \/ exists f, FilterFunc cfg = Some f /\ f st = false) ->
    exampleSpanNameFunc st = defaultSpanName (st_c st)
    /\ buildSpanName cfg st = defaultSpanName (st_c st)
    /\ startedNames (snd (OTelWithConfig_run g cfg next st))
       = [defaultSpanName (st_c st)].
Proof.
  intros g cfg next st Hcfg Hf. apply not_filtered in Hf.
  assert (Hsame : exampleSpanNameFunc st = defaultSpanName (st_c st)).
  { unfold exampleSpanNameFunc, defaultSpanName.
    destruct (Route (st_c st) =? "")%string; reflexivity. }
  assert (Hbuild : buildSpanName cfg st = defaultSpanName (st_c st)).
  { unfold buildSpanName. rewrite Hcfg. cbn zeta. rewrite Hsame.
    destruct (defaultSpanName (st_c st) =? "")%string; reflexivity. }
  split; [exact Hsame|]. split; [exact Hbuild|].
  rewrite traced_started_name by exact Hf. rewrite Hbuild. reflexivity.
Qed.

(** X13 with the configuration of the example. *)
Lemma X13_witness :
  (SpanNameFunc exampleConfig = Some exampleSpanNameFunc
   /\ (FilterFunc exampleConfig = None
       \/ exists f, FilterFunc exampleConfig = Some f /\ f sampleState = false))
  /\ startedNames
       (snd (OTelWithConfig_run sdkGlobals exampleConfig okHandler sampleState))
     = ["GET /u/1"].
Proof.
  split.
  - split; [reflexivity | right; eexists; split; reflexivity].
  - exact (proj2 (proj2 (X13_example_name_is_the_default sdkGlobals exampleConfig
                           okHandler sampleState eq_refl
                           (or_intror (ex_intro _ _ (conj eq_refl eq_refl)))))).
Defined.

(** X14: the status function of the example departs from the default
    mapping on the codes 400 to 499 and nowhere else: there it gives Error
    with the description client error, whatever the error, and everywhere
    else it gives what the default mapping gives. *)
Theorem X14_example_status_differs_on_4xx_only :
  forall (code : Z) (err : error),
    (exampleStatusFunc code err = defaultStatus code err
       <-> ~ (400 <= code < 500))
    /\ (400 <= code < 500 ->
        exampleStatusFunc code err = (codes_Error, "client error")).
Proof.
  intros code err. unfold exampleStatusFunc, defaultStatus.
  destruct (Z.leb_spec 400 code) as [Hlo|Hlo];
    destruct (Z.ltb_spec code 500) as [Hhi|Hhi]; cbn [andb].
  - split; [|reflexivity]. split; [|intros Hno; exfalso; apply Hno; lia].
    intros Heq. exfalso.
    destruct (negb (is_nil err) || (500 <=? code)).
    + injection Heq as Heq.
      exact (StatusText_not_client_error code (eq_sym Heq)).
    + discriminate Heq.
  - split; [|lia]. split; [lia | reflexivity].
  - split; [|lia]. split; [lia | reflexivity].
  - split; [|lia]. split; [lia | reflexivity].
Qed.

Lemma has_ended_journal_all (ops : list SpanOp) (rec : SpanRecord) :
  In OpEnd ops -> has_ended (journal_all ops rec) = true.
Proof.
  intros Hin. unfold has_ended, journal_all. cbn [spOps].
  rewrite existsb_app. apply orb_true_iff. right.
  apply existsb_exists. exists OpEnd. split; [exact Hin | reflexivity].
Qed.

Lemma ended_not_recording (sp : trace_Span) (ops : list SpanOp) (w : World) :
  In OpEnd ops -> IsRecording sp (span_do_all sp ops w) = false.
Proof.
  intros Hin. destruct sp as [|id]; [reflexivity|]. cbn [IsRecording].
  destruct (span_do_all_effect (recordingSpan id) ops w) as (_ & _ & ->).
  rewrite list_lookup_alter_eq.
  destruct (spans w !! id) as [rec|]; [|reflexivity].
  change (negb (has_ended (journal_all ops rec)) = false).
  rewrite has_ended_journal_all by exact Hin. reflexivity.
Qed.

(** X15: when the middleware is done with a traced request, the span it
    started is not recording any more, whether the handler returned or
    panicked and whatever the handler did to the span. *)
Theorem X15_span_is_closed_afterwards :
  forall (g : otel_Globals) (cfg : OTelConfig) (next : flash_Handler) (st : State),
    (FilterFunc cfg = None \/ exists f, FilterFunc cfg = Some f /\ f st = false) ->
    IsRecording (entrySpan g cfg st) (st_w (snd (OTelWithConfig g cfg next st)))
    = false.
Proof.
  intros g cfg next st Hf. apply not_filtered in Hf. unfold OTelWithConfig.
  destruct (next (entryState g cfg st)) as [[err|v] st2] eqn:Hnext.
  - rewrite (traced_return_state g cfg next st st2 err Hf Hnext). cbn [st_w].
    apply ended_not_recording. unfold finalOps.
    rewrite !in_app_iff. right. right. left. reflexivity.
  - rewrite (traced_panic_state g cfg next st st2 v Hf Hnext). cbn [st_w].
    apply (ended_not_recording (entrySpan g cfg st) [OpEnd] (st_w st2)).
    left. reflexivity.
Qed.

(** X15 at a handler that panics under the recording tracer. *)
Lemma X15_witness :
  (FilterFunc plainConfig = None
   \/ exists f, FilterFunc plainConfig = Some f /\ f sampleState = false)
  /\ IsRecording (recordingSpan 0)
       (st_w (snd (OTelWithConfig sdkGlobals plainConfig panicHandler sampleState)))
     = false.
Proof.
  split.
  - left. reflexivity.
  - exact (X15_span_is_closed_afterwards sdkGlobals plainConfig panicHandler
             sampleState (or_introl eq_refl)).
Defined.
